(** * Cursor pagination of the storage-gateway dashboard

    A shallow embedding of the pagination code of
    [storage_gateway_dashboard]: [api/api.py] ([update_pagination] and the
    [volume_*_list_paged] wrappers), [common/table.py] ([PagedTableMixin])
    and [checkpoints/views.py] ([CheckpointsView.get_data]).

    Python lists are mutable objects: [update_pagination] pops the caller's
    list in place and returns that very list.  Lists therefore live in a
    heap, and the code is written in a state-and-exception monad. *)

From stdpp Require Import gmap strings list fin_maps.
From Stdlib Require Import ZArith Lia ZifyBool.

Local Open Scope string_scope.
Local Open Scope list_scope.

(** ** Exceptions, results, and the monad *)

(** The exception classes the modelled code can meet.  [Remote] stands for
    whatever the REST client raises (network, authentication, server). *)
Inductive exn : Type :=
  | IndexError
  | AttributeError
  | Remote (reason : string).

Inductive res (X : Type) : Type :=
  | Ok (x : X)
  | Raise (e : exn).
Arguments Ok {X} x.
Arguments Raise {X} e.

(** An attribute-carrying Python object: string-valued attributes (ids,
    names, statuses as the REST client delivers them) and attributes that
    hold another object or [None]. *)
#[local] Set Warnings "-register-all".
Inductive obj : Type :=
  | Obj (fields : list (string * string)) (links : list (string * option obj)).

#[local] Set Warnings "+register-all".

Definition fields_of (o : obj) : list (string * string) :=
  match o with Obj f _ => f end.
Definition links_of (o : obj) : list (string * option obj) :=
  match o with Obj _ l => l end.

(** Lookup in an attribute list; the most recent binding is at the head. *)
Fixpoint assoc {V : Type} (k : string) (l : list (string * V)) : option V :=
  match l with
  | [] => None
  | (k', v) :: t => if String.eqb k k' then Some v else assoc k t
  end.

Abbreviation loc := positive.

(** The mutable world: the heap of list objects, the two flags of the view
    object ([self._has_more_data], [self._has_prev_data]) and the messages
    queued for the user by [exceptions.handle]. *)
Record state : Type := State {
  heap : gmap loc (list obj);
  _has_more_data : bool;
  _has_prev_data : bool;
  messages : list (exn * string)
}.

Definition set_heap (h : gmap loc (list obj)) (s : state) : state :=
  State h (_has_more_data s) (_has_prev_data s) (messages s).

Definition M (X : Type) : Type := state -> res X * state.

Definition run {X} (m : M X) (s : state) : res X * state := m s.

#[global] Instance M_ret : MRet M := fun X x s => (Ok x, s).
#[global] Instance M_bind : MBind M := fun X Y f m s =>
  match m s with
  | (Ok x, s') => f x s'
  | (Raise e, s') => (Raise e, s')
  end.

Definition raise {X} (e : exn) : M X := fun s => (Raise e, s).

(** [try: body except <class>: handler], for a body that is one
    expression; [catches] tells which exceptions the clause names. *)
Definition try_except {X} (body : M X) (catches : exn -> bool)
    (handler : exn -> M X) : M X :=
  fun s =>
    match body s with
    | (Ok x, s') => (Ok x, s')
    | (Raise e, s') => if catches e then handler e s' else (Raise e, s')
    end.

(** [try: stmt1; stmt2; ... except Exception: handler], for a body that is
    a sequence of assignments to the local variables [L].  A statement that
    raises assigns nothing: after the handler the locals are those the
    earlier statements left. *)
Fixpoint try_block {L} (stmts : list (L -> M L)) (handler : exn -> M unit)
    (locals : L) : M L :=
  match stmts with
  | [] => mret locals
  | stmt :: rest => fun s =>
      match stmt locals s with
      | (Ok locals', s') => try_block rest handler locals' s'
      | (Raise e, s') => (handler e ;; mret locals) s'
      end
  end.

(** [for x in xs: body] over an already evaluated sequence. *)
Fixpoint for_each {X} (xs : list X) (body : X -> M unit) : M unit :=
  match xs with
  | [] => mret tt
  | x :: rest => body x ;; for_each rest body
  end.

(** A value the modelled code obtains from outside (the REST client). *)
Definition outcome {X} (r : res X) : M X := fun s => (r, s).

(** ** List objects *)

(** [[]]: a new, empty list object. *)
Definition new_list : M loc := fun s =>
  let r := fresh (dom (heap s)) in
  (Ok r, set_heap (<[r := []]> (heap s)) s).

(** Reading a list object.  A dangling reference cannot arise in Python;
    the model reports it as an [AttributeError]. *)
Definition contents (r : loc) : M (list obj) := fun s =>
  match heap s !! r with
  | Some l => (Ok l, s)
  | None => (Raise AttributeError, s)
  end.

(** [len(entities)] *)
Definition len (r : loc) : M Z :=
  l ← contents r; mret (Z.of_nat (length l)).

(** [entities.append(x)] *)
Definition append (r : loc) (x : obj) : M unit := fun s =>
  match heap s !! r with
  | Some l => (Ok tt, set_heap (<[r := l ++ [x]]> (heap s)) s)
  | None => (Raise AttributeError, s)
  end.

(** [entities.pop()]: removes and returns the last element; [IndexError]
    on an empty list. *)
Definition pop (r : loc) : M obj := fun s =>
  match heap s !! r with
  | Some l =>
      match last l with
      | Some x => (Ok x, set_heap (<[r := removelast l]> (heap s)) s)
      | None => (Raise IndexError, s)
      end
  | None => (Raise AttributeError, s)
  end.

(** ** The request and the remote service *)

(** The keyword arguments of a [list] call of the REST client. *)
Record list_query : Type := ListQuery {
  q_search_opts : option (list (string * string));
  q_limit : option Z;
  q_marker : option string;
  q_sort : option string
}.

(** [sgsclient.client.Client]: the listing endpoints, each returning the
    records of the service or raising. *)
Record client : Type := Client {
  backups_list : list_query -> res (list obj);
  checkpoints_list : list_query -> res (list obj);
  replications_list : list_query -> res (list obj)
}.

(** What the code reads from the incoming request: the query string, the
    page size of [horizon.utils.functions.get_page_size], the client that
    the service catalogue yields (or the exception of the lookup), and the
    verdict of [horizon.exceptions.handle] on an exception: [Ok tt] when it
    queues the message and returns, [Raise e'] when it raises. *)
Record request : Type := Request {
  GET : gmap string string;
  get_page_size : Z;
  service : res client;
  handle_verdict : exn -> res unit
}.

(** ** api/api.py *)

(** [is not None] *)
Definition is_not_None {X} (x : option X) : bool :=
  match x with Some _ => true | None => false end.

(** [sgsclient(request)] *)
Definition sgsclient (request : request) : M (option client) :=
  c ← outcome (service request); mret (Some c).

(** [VolumeBackup(b)]: the wrapper keeps the resource in [_apiresource]. *)
Definition VolumeBackup (b : obj) : obj :=
  Obj [] [("_apiresource", Some b)].

(** [update_pagination(entities, page_size, marker, sort_dir)]: [entities]
    is a reference to the caller's list, [marker] is [None] or a string. *)
Definition update_pagination (entities : loc) (page_size : Z)
    (marker : option string) (sort_dir : string) : M (loc * bool * bool) :=
  let has_more_data := false in
  let has_prev_data := false in
  n ← len entities;
  if (n >? page_size)%Z then
    let has_more_data := true in
    _ ← pop entities;
    if is_not_None marker then
      let has_prev_data := true in
      mret (entities, has_more_data, has_prev_data)
    else
      mret (entities, has_more_data, has_prev_data)
  (* first page condition when reached via prev back *)
  else if (sort_dir =? "asc") && is_not_None marker then
    let has_more_data := true in
    mret (entities, has_more_data, has_prev_data)
  (* last page condition *)
  else if is_not_None marker then
    let has_prev_data := true in
    mret (entities, has_more_data, has_prev_data)
  else
    mret (entities, has_more_data, has_prev_data).

Definition volume_backup_list_paged (request : request)
    (marker : option string) (paginate : bool) (sort_dir : string)
    : M (loc * bool * bool) :=
  let has_more_data := false in
  let has_prev_data := false in
  backups ← new_list;
  c_client ← sgsclient request;
  match c_client with
  | None => mret (backups, has_more_data, has_prev_data)
  | Some c_client =>
      if paginate then
        let page_size := get_page_size request in
        let sort := "created_at:" +:+ sort_dir in
        bs ← outcome (backups_list c_client
                        (ListQuery None (Some (page_size + 1)%Z) marker
                                   (Some sort)));
        for_each bs (fun b => append backups (VolumeBackup b)) ;;
        update_pagination backups page_size marker sort_dir
      else
        bs ← outcome (backups_list c_client (ListQuery None None None None));
        for_each bs (fun b => append backups b) ;;
        mret (backups, has_more_data, has_prev_data)
  end.

Definition volume_checkpoint_list_paged (request : request)
    (search_opts : option (list (string * string)))
    (marker : option string) (paginate : bool) (sort_dir : string)
    : M (loc * bool * bool) :=
  let has_more_data := false in
  let has_prev_data := false in
  checkpoints ← new_list;
  c_client ← sgsclient request;
  match c_client with
  | None => mret (checkpoints, has_more_data, has_more_data)
  | Some c_client =>
      if paginate then
        let page_size := get_page_size request in
        let sort := "created_at:" +:+ sort_dir in
        ss ← outcome (checkpoints_list c_client
                        (ListQuery search_opts (Some (page_size + 1)%Z)
                                   marker (Some sort)));
        for_each ss (fun s => append checkpoints s) ;;
        update_pagination checkpoints page_size marker sort_dir
      else
        ss ← outcome (checkpoints_list c_client
                        (ListQuery search_opts None None None));
        for_each ss (fun s => append checkpoints s) ;;
        mret (checkpoints, has_more_data, has_prev_data)
  end.

Definition volume_replication_list_paged (request : request)
    (search_opts : option (list (string * string)))
    (marker : option string) (paginate : bool) (sort_dir : string)
    : M (loc * bool * bool) :=
  let has_more_data := false in
  let has_prev_data := false in
  replications ← new_list;
  c_client ← sgsclient request;
  match c_client with
  | None => mret (replications, has_more_data, has_more_data)
  | Some c_client =>
      if paginate then
        let page_size := get_page_size request in
        let sort := "created_at:" +:+ sort_dir in
        ss ← outcome (replications_list c_client
                        (ListQuery search_opts (Some (page_size + 1)%Z)
                                   marker (Some sort)));
        for_each ss (fun s => append replications s) ;;
        update_pagination replications page_size marker sort_dir
      else
        ss ← outcome (replications_list c_client
                        (ListQuery search_opts None None None));
        for_each ss (fun s => append replications s) ;;
        mret (replications, has_more_data, has_prev_data)
  end.

Definition volume_replication_list (request : request)
    (search_opts : option (list (string * string))) : M loc :=
  '(replications, _, _) ←
    volume_replication_list_paged request search_opts None false "desc";
  mret replications.

(** ** common/table.py *)

(** The [_meta] of a table class: the names of its two query parameters. *)
Record meta : Type := Meta {
  pagination_param : string;
  prev_pagination_param : string
}.

(** The part of a view object that the code only reads.  Either attribute
    may be missing on a given view class. *)
Record view : Type := View {
  table_class : option meta;
  table_classes : option (list meta);
  view_request : request
}.

(** [PagedTableMixin.__init__] *)
Definition PagedTableMixin_init : M unit := fun s =>
  (Ok tt, State (heap s) false false (messages s)).

(** [PagedTableMixin.has_prev_data] and [has_more_data] *)
Definition has_prev_data : M bool := fun s => (Ok (_has_prev_data s), s).
Definition has_more_data : M bool := fun s => (Ok (_has_more_data s), s).

(** Truth value of the result of [GET.get(name, None)]: [None] and the
    empty string are false. *)
Definition truthy (x : option string) : bool :=
  match x with
  | Some v => negb (v =? "")
  | None => false
  end.

Definition is_AttributeError (e : exn) : bool :=
  match e with AttributeError => true | _ => false end.

(** [self.table_class._meta] *)
Definition table_class_meta (self : view) : M meta :=
  match table_class self with
  | Some m => mret m
  | None => raise AttributeError
  end.

(** [self.table_classes[0]._meta] *)
Definition table_classes_0_meta (self : view) : M meta :=
  match table_classes self with
  | Some (m :: _) => mret m
  | Some [] => raise IndexError
  | None => raise AttributeError
  end.

Definition _get_marker (self : view) : M (option string * string) :=
  meta ← try_except (table_class_meta self) is_AttributeError
                    (fun _ => table_classes_0_meta self);
  let prev_marker := GET (view_request self) !! prev_pagination_param meta in
  if truthy prev_marker then
    mret (prev_marker, "asc")
  else
    let marker := GET (view_request self) !! pagination_param meta in
    if truthy marker then
      mret (marker, "desc")
    else
      mret (None, "desc").

(** ** checkpoints/views.py *)

(** [horizon.exceptions.handle(request, message)], called in an [except]
    clause for the exception [e] being handled. *)
Definition queue_message (e : exn) (message : string) : M unit := fun s =>
  (Ok tt, State (heap s) (_has_more_data s) (_has_prev_data s)
                (messages s ++ [(e, message)])).

Definition exceptions_handle (request : request) (e : exn) (message : string)
    : M unit :=
  outcome (handle_verdict request e) ;;
  queue_message e message.

(** [getattr(x, name)] of a string-valued attribute *)
Definition getattr (x : obj) (name : string) : M string :=
  match assoc name (fields_of x) with
  | Some v => mret v
  | None => raise AttributeError
  end.

(** [setattr(x, name, y)] for an object or [None] *)
Definition setattr (x : obj) (name : string) (y : option obj) : obj :=
  Obj (fields_of x) ((name, y) :: links_of x).

(** [dict((v.id, v) for v in vs)] *)
Fixpoint dict_by_id (vs : list obj) (d : gmap string obj)
    : M (gmap string obj) :=
  match vs with
  | [] => mret d
  | v :: rest => k ← getattr v "id"; dict_by_id rest (<[k := v]> d)
  end.

(** The local variable [replications] of [get_data] holds a dict, or, for
    one statement, the list that was fetched.  Iterating a dict yields its
    keys, which have no [id]. *)
Inductive dict_or_list : Type :=
  | PyDict (d : gmap string obj)
  | PyList (r : loc).

(** [replications.get(key, None)]; a list has no [get]. *)
Definition dict_get (replications : dict_or_list) (key : string)
    : M (option obj) :=
  match replications with
  | PyDict d => mret (d !! key)
  | PyList _ => raise AttributeError
  end.

(** The objects of a list are stored in the list itself, so an attribute
    set on the [i]-th object is written back to position [i]. *)
Definition store_item (r : loc) (i : nat) (x : obj) : M unit := fun s =>
  match heap s !! r with
  | Some l => (Ok tt, set_heap (<[r := <[i := x]> l]> (heap s)) s)
  | None => (Raise AttributeError, s)
  end.

Record get_data_locals : Type := Locals {
  checkpoints : loc;
  replications : dict_or_list
}.

Definition set_flags (more prev : bool) : M unit := fun s =>
  (Ok tt, State (heap s) more prev (messages s)).

(** [CheckpointsView.get_data].  The first two lines of the [try] body are
    one step here: [marker] and [sort_dir] are read by the second line only,
    and the tuple assignment of the second line happens once the call has
    returned. *)
Definition get_data (self : view) : M loc :=
  checkpoints0 ← new_list;
  let replications0 := PyDict ∅ in
  locals ← try_block
    [ (fun locals =>
         '(marker, sort_dir) ← _get_marker self;
         '(cs, more, prev) ←
           volume_checkpoint_list_paged (view_request self) None marker
                                        true sort_dir;
         set_flags more prev ;;
         mret (Locals cs (replications locals)));
      (fun locals =>
         rs ← volume_replication_list (view_request self) None;
         mret (Locals (checkpoints locals) (PyList rs)));
      (fun locals =>
         match replications locals with
         | PyList rs =>
             vs ← contents rs;
             d ← dict_by_id vs ∅;
             mret (Locals (checkpoints locals) (PyDict d))
         | PyDict _ => raise AttributeError
         end) ]
    (fun e => exceptions_handle (view_request self) e
                "Unable to retrieve volume checkpoints.")
    (Locals checkpoints0 replications0);
  cs ← contents (checkpoints locals);
  for_each (imap (fun i c => (i, c)) cs) (fun '(i, checkpoint) =>
    replication_id ← getattr checkpoint "replication_id";
    rep ← dict_get (replications locals) replication_id;
    store_item (checkpoints locals) i (setattr checkpoint "_replication" rep)) ;;
  mret (checkpoints locals).

(** ** The page a call returns *)

(** What the caller of a paged fetch sees: the contents of the returned
    list object and the two flags. *)
Definition page (out : res (loc * bool * bool) * state)
    : option (list obj * bool * bool) :=
  match out with
  | (Ok (r, more, prev), s') => (fun l => (l, more, prev)) <$> heap s' !! r
  | (Raise _, _) => None
  end.

(** The call returns a page, and the page satisfies [P]. *)
Definition returns_page (out : res (loc * bool * bool) * state)
    (P : list obj -> bool -> bool -> Prop) : Prop :=
  exists items more prev, page out = Some (items, more, prev) /\ P items more prev.

(** The trim-and-flag algorithm in the words of the design (section 4.1),
    to be compared with [update_pagination]. *)
Definition trim_and_flag (fetched : list obj) (page_size : Z)
    (cursor : option string) (direction : string)
    : list obj * bool * bool :=
  if (Z.of_nat (length fetched) >? page_size)%Z then
    (removelast fetched, true, is_not_None cursor)
  else if (direction =? "asc") && is_not_None cursor then
    (fetched, true, false)
  else if is_not_None cursor then
    (fetched, false, true)
  else
    (fetched, false, false).

(** The effect of [update_pagination] on the list it is given: the flags or
    the exception, and the list afterwards. *)
Definition paginated (l : list obj) (page_size : Z) (marker : option string)
    (sort_dir : string) : res (bool * bool) * list obj :=
  if (Z.of_nat (length l) >? page_size)%Z then
    match last l with
    | Some _ => (Ok (true, is_not_None marker), removelast l)
    | None => (Raise IndexError, l)
    end
  else
    (Ok ((sort_dir =? "asc") && is_not_None marker,
         negb (sort_dir =? "asc") && is_not_None marker), l).

Definition with_ref (r : loc) (f : res (bool * bool)) : res (loc * bool * bool) :=
  match f with
  | Ok (more, prev) => Ok (r, more, prev)
  | Raise e => Raise e
  end.

(** ** A service to run the code against *)

(** Modelled from the spec: the remote list operation (section 6), which
    returns the records sorted by creation time in the requested direction,
    starting strictly after the record whose identifier is the marker, and
    at most [limit] of them.  [newest_first] is what the service holds. *)
Fixpoint after_marker (m : string) (l : list obj) : list obj :=
  match l with
  | [] => []
  | x :: rest =>
      if bool_decide (assoc "id" (fields_of x) = Some m) then rest
      else after_marker m rest
  end.

Definition backend_list (newest_first : list obj) (q : list_query)
    : res (list obj) :=
  let ordered :=
    if bool_decide (q_sort q = Some "created_at:asc")
    then reverse newest_first else newest_first in
  let rest :=
    match q_marker q with
    | Some m => after_marker m ordered
    | None => ordered
    end in
  Ok (match q_limit q with
      | Some n => take (Z.to_nat n) rest
      | None => rest
      end).

Definition record (name : string) : obj := Obj [("id", name)] [].

(** A state whose heap holds the single list [l] at reference [1]. *)
Definition heap_with (l : list obj) : state :=
  State {[ 1%positive := l ]} false false [].

(** Sample fetches over five records [a] .. [e] in creation order. *)
Definition fetched_edc : list obj := [record "e"; record "d"; record "c"].
Definition fetched_cd : list obj := [record "c"; record "d"].

Definition empty_state : state := State ∅ false false [].

Definition backend_request (newest_first : list obj) (page_size : Z)
    (query : gmap string string) : request :=
  Request query page_size
    (Ok (Client (backend_list newest_first) (backend_list newest_first)
                (backend_list [])))
    (fun _ => Ok tt).

(** [VolumeCheckpointsTable.Meta] of checkpoints/tables.py and the view
    class that uses it. *)
Definition VolumeCheckpointsTable_meta : meta :=
  Meta "checkpoint_marker" "prev_checkpoint_marker".

Definition CheckpointsView (request : request) : view :=
  View (Some VolumeCheckpointsTable_meta) None request.

(** ** Statements about marker resolution and repeated fetches *)

(** The table whose parameter names [_get_marker] reads: that of
    [table_class], or else of the first of [table_classes]. *)
Definition has_meta (self : view) (m : meta) : Prop :=
  table_class self = Some m \/
  (table_class self = None /\ exists rest, table_classes self = Some (m :: rest)).

(** Marker resolution in the words of the design (section 6), where a
    parameter counts as soon as it is present in the query. *)
Definition resolution_by_presence (query : gmap string string) (m : meta)
    : option string * string :=
  match query !! prev_pagination_param m with
  | Some prev_marker => (Some prev_marker, "asc")
  | None =>
      match query !! pagination_param m with
      | Some next_marker => (Some next_marker, "desc")
      | None => (None, "desc")
      end
  end.

(** A query parameter that is present with a non-empty value. *)
Definition given (query : gmap string string) (name : string) (v : string)
    : Prop :=
  query !! name = Some v /\ v <> "".

(** What [_get_marker] returns; it reads the view and changes nothing. *)
Definition resolved_marker (self : view) : res (option string * string) :=
  (run (_get_marker self) empty_state).1.

(** What the caller of a paged fetch can observe of its outcome: the
    exception, or the contents of the returned list and the flags. *)
Definition observed (out : res (loc * bool * bool) * state)
    : res (option (list obj) * bool * bool) :=
  match out with
  | (Ok (r, more, prev), s') => Ok (heap s' !! r, more, prev)
  | (Raise e, _) => Raise e
  end.

(** The common shape of the three [volume_*_list_paged] functions, and its
    effect on the list it creates. *)
Definition list_paged (endpoint : client -> list_query -> res (list obj))
    (wrap : obj -> obj) (request : request)
    (search_opts : option (list (string * string)))
    (marker : option string) (paginate : bool) (sort_dir : string)
    : M (loc * bool * bool) :=
  entities ← new_list;
  c_client ← sgsclient request;
  match c_client with
  | None => mret (entities, false, false)
  | Some c_client =>
      if paginate then
        xs ← outcome (endpoint c_client
                        (ListQuery search_opts
                           (Some (get_page_size request + 1)%Z) marker
                           (Some ("created_at:" +:+ sort_dir))));
        for_each xs (fun x => append entities (wrap x)) ;;
        update_pagination entities (get_page_size request) marker sort_dir
      else
        xs ← outcome (endpoint c_client
                        (ListQuery search_opts None None None));
        for_each xs (fun x => append entities x) ;;
        mret (entities, false, false)
  end.

Definition fetched_page (endpoint : client -> list_query -> res (list obj))
    (wrap : obj -> obj) (request : request)
    (search_opts : option (list (string * string)))
    (marker : option string) (paginate : bool) (sort_dir : string)
    : res (bool * bool) * list obj :=
  match service request with
  | Raise e => (Raise e, [])
  | Ok c_client =>
      if paginate then
        match endpoint c_client
                (ListQuery search_opts (Some (get_page_size request + 1)%Z)
                   marker (Some ("created_at:" +:+ sort_dir))) with
        | Ok xs =>
            paginated (map wrap xs) (get_page_size request) marker sort_dir
        | Raise e => (Raise e, [])
        end
      else
        match endpoint c_client (ListQuery search_opts None None None) with
        | Ok xs => (Ok (false, false), xs)
        | Raise e => (Raise e, [])
        end
  end.

(** Five records, newest first, and requests against a service holding
    them: a first page of size two, and one with a prev-marker. *)
Definition five_records : list obj :=
  [record "e"; record "d"; record "c"; record "b"; record "a"].

Definition first_page_request : request := backend_request five_records 2 ∅.

Definition prev_query : gmap string string :=
  {[ "prev_checkpoint_marker" := "d" ]}.

Definition empty_prev_query : gmap string string :=
  {[ "prev_checkpoint_marker" := "" ]}.



(** ** api/api.py: the remaining listings, resource names, [volume_get] *)

(** The other calls the code makes on the client object and on nova, which
    the record [client] does not carry: [c_client.volumes.list],
    [c_client.snapshots.list], [c_client.volumes.get] and
    [nova.server_get]. *)
Record volume_data : Type := VolumeData {
  volume_resource : obj;
  attachments : list (gmap string string)
}.

Record endpoints : Type := Endpoints {
  volumes_list : client -> list_query -> res (list obj);
  snapshots_list : client -> list_query -> res (list obj);
  volumes_get : client -> string -> res volume_data;
  nova_server_get : request -> string -> res obj
}.

(** [getattr(x, name, None)] *)
Definition getattr_or_None (x : obj) (name : string) : option string :=
  assoc name (fields_of x).

(** Python's [a or b] on values that are [None] or strings. *)
Definition py_or (a b : option string) : option string :=
  if truthy a then a else b.

(** [self._apiresource] of a wrapper *)
Definition apiresource (self : obj) : M obj :=
  match assoc "_apiresource" (links_of self) with
  | Some (Some r) => mret r
  | _ => raise AttributeError
  end.

(** [BaseSgAPIResourceWrapper.name] *)
Definition BaseSgAPIResourceWrapper_name (self : obj) : M (option string) :=
  r ← apiresource self;
  mret (py_or (py_or (getattr_or_None r "name")
                     (getattr_or_None r "display_name"))
              (getattr_or_None r "id")).

(** [BaseSgAPIResourceWrapper.description] *)
Definition BaseSgAPIResourceWrapper_description (self : obj)
    : M (option string) :=
  r ← apiresource self;
  mret (py_or (getattr_or_None r "description")
              (getattr_or_None r "display_description")).

Definition volume_backup_list (request : request) : M loc :=
  '(backups, _, _) ← volume_backup_list_paged request None false "desc";
  mret backups.

(** The loop of [volume_get] over [volume_data.attachments].  Each
    attachment is a dict that the loop updates in place; the list is
    reachable only through the volume being returned, so the updated dicts
    are collected into the list of the result.  The translatable
    [_("Unknown instance")] stands as its message id. *)
Fixpoint name_attachments (api : endpoints) (request : request)
    (atts : list (gmap string string)) : M (list (gmap string string)) :=
  match atts with
  | [] => mret []
  | attachment :: rest =>
      attachment' ←
        match attachment !! "server_id" with
        | Some server_id =>
            instance ← outcome (nova_server_get api request server_id);
            name ← getattr instance "name";
            mret (<["instance_name" := name]> attachment)
        | None =>
            (* Nova volume can occasionally send back error'd attachments
               the lack a server_id property *)
            mret (<["instance_name" := "Unknown instance"]> attachment)
        end;
      rest' ← name_attachments api request rest;
      mret (attachment' :: rest')
  end.

Definition volume_get (api : endpoints) (request : request)
    (volume_id : string) : M volume_data :=
  c_client ← sgsclient request;
  match c_client with
  | None => raise AttributeError
  | Some c_client =>
      volume_data ← outcome (volumes_get api c_client volume_id);
      atts ← name_attachments api request (attachments volume_data);
      mret (VolumeData (volume_resource volume_data) atts)
  end.

Definition volume_list_paged (api : endpoints) (request : request)
    (search_opts : option (list (string * string)))
    (marker : option string) (paginate : bool) (sort_dir : string)
    : M (loc * bool * bool) :=
  let has_more_data := false in
  let has_prev_data := false in
  volumes ← new_list;
  c_client ← sgsclient request;
  match c_client with
  | None => mret (volumes, has_more_data, has_prev_data)
  | Some c_client =>
      if paginate then
        let page_size := get_page_size request in
        let sort := "created_at:" +:+ sort_dir in
        vs ← outcome (volumes_list api c_client
                        (ListQuery search_opts (Some (page_size + 1)%Z)
                                   marker (Some sort)));
        for_each vs (fun v => append volumes v) ;;
        update_pagination volumes page_size marker sort_dir
      else
        vs ← outcome (volumes_list api c_client
                        (ListQuery search_opts None None None));
        for_each vs (fun v => append volumes v) ;;
        mret (volumes, has_more_data, has_prev_data)
  end.

Definition volume_list (api : endpoints) (request : request)
    (search_opts : option (list (string * string)))
    (marker : option string) (sort_dir : string) : M loc :=
  '(volumes, _, _) ←
    volume_list_paged api request search_opts marker false sort_dir;
  mret volumes.

Definition volume_snapshot_list_paged (api : endpoints) (request : request)
    (search_opts : option (list (string * string)))
    (marker : option string) (paginate : bool) (sort_dir : string)
    : M (loc * bool * bool) :=
  let has_more_data := false in
  let has_prev_data := false in
  snapshots ← new_list;
  c_client ← sgsclient request;
  match c_client with
  | None => mret (snapshots, has_more_data, has_more_data)
  | Some c_client =>
      if paginate then
        let page_size := get_page_size request in
        let sort := "created_at:" +:+ sort_dir in
        ss ← outcome (snapshots_list api c_client
                        (ListQuery search_opts (Some (page_size + 1)%Z)
                                   marker (Some sort)));
        for_each ss (fun s => append snapshots s) ;;
        update_pagination snapshots page_size marker sort_dir
      else
        ss ← outcome (snapshots_list api c_client
                        (ListQuery search_opts None None None));
        for_each ss (fun s => append snapshots s) ;;
        mret (snapshots, has_more_data, has_prev_data)
  end.

Definition volume_snapshot_list (api : endpoints) (request : request)
    (search_opts : option (list (string * string))) : M loc :=
  '(snapshots, _, _) ←
    volume_snapshot_list_paged api request search_opts None false "desc";
  mret snapshots.

Definition volume_checkpoint_list (request : request)
    (search_opts : option (list (string * string))) : M loc :=
  '(checkpoints, _, _) ←
    volume_checkpoint_list_paged request search_opts None false "desc";
  mret checkpoints.

(** ** replications/views.py *)

Record replications_locals : Type := ReplicationsLocals {
  rv_replications : loc;
  rv_volumes : dict_or_list
}.

(** The body of the loop of [ReplicationsView.get_data] for the [i]-th
    replication of the list. *)
Definition set_master_and_slave (replications : loc) (volumes : dict_or_list)
    (i : nat) (replication : obj) : M unit :=
  master_volume ← getattr replication "master_volume";
  master_vol ← dict_get volumes master_volume;
  let replication := setattr replication "_master" master_vol in
  store_item replications i replication ;;
  slave_volume ← getattr replication "slave_volume";
  slave_vol ← dict_get volumes slave_volume;
  let replication := setattr replication "_slave" slave_vol in
  store_item replications i replication.

(** [ReplicationsView.get_data] *)
Definition ReplicationsView_get_data (api : endpoints) (self : view) : M loc :=
  replications0 ← new_list;
  let volumes0 := PyDict ∅ in
  locals ← try_block
    [ (fun locals =>
         '(marker, sort_dir) ← _get_marker self;
         '(rs, more, prev) ←
           volume_replication_list_paged (view_request self) None marker
                                         true sort_dir;
         set_flags more prev ;;
         mret (ReplicationsLocals rs (rv_volumes locals)));
      (fun locals =>
         vs ← volume_list api (view_request self) None None "desc";
         mret (ReplicationsLocals (rv_replications locals) (PyList vs)));
      (fun locals =>
         match rv_volumes locals with
         | PyList vs =>
             volumes ← contents vs;
             d ← dict_by_id volumes ∅;
             mret (ReplicationsLocals (rv_replications locals) (PyDict d))
         | PyDict _ => raise AttributeError
         end) ]
    (fun e => exceptions_handle (view_request self) e
                "Unable to retrieve volume replications.")
    (ReplicationsLocals replications0 volumes0);
  rs ← contents (rv_replications locals);
  for_each (imap (fun i r => (i, r)) rs) (fun '(i, replication) =>
    set_master_and_slave (rv_replications locals) (rv_volumes locals)
                         i replication) ;;
  mret (rv_replications locals).

(** ** What the views attach to the records *)

(** The dict that [dict((v.id, v) for v in vs)] builds when every [v] has
    an [id]: a later record replaces an earlier one with the same id. *)
Definition index_by_id (vs : list obj) (d : gmap string obj)
    : gmap string obj :=
  foldl (fun d v =>
           match assoc "id" (fields_of v) with
           | Some k => <[k := v]> d
           | None => d
           end) d vs.

Definition has_field (name : string) (x : obj) : Prop :=
  is_Some (assoc name (fields_of x)).

(** A checkpoint after the loop of [CheckpointsView.get_data]. *)
Definition with_replication (d : gmap string obj) (checkpoint : obj) : obj :=
  match assoc "replication_id" (fields_of checkpoint) with
  | Some replication_id => setattr checkpoint "_replication" (d !! replication_id)
  | None => checkpoint
  end.

(** A replication after the loop of [ReplicationsView.get_data]. *)
Definition with_master_and_slave (d : gmap string obj) (replication : obj)
    : obj :=
  match assoc "master_volume" (fields_of replication),
        assoc "slave_volume" (fields_of replication) with
  | Some master_volume, Some slave_volume =>
      setattr (setattr replication "_master" (d !! master_volume))
              "_slave" (d !! slave_volume)
  | _, _ => replication
  end.

(** [found] is what a lookup by id in the listing [vs] must give for the
    id [k]: a listed record with that id, or [None] when there is none. *)
Definition found_by_id (vs : list obj) (k : string) (found : option obj)
    : Prop :=
  match found with
  | Some v => v ∈ vs /\ assoc "id" (fields_of v) = Some k
  | None => forall v, v ∈ vs -> assoc "id" (fields_of v) <> Some k
  end.

(** The instance name that [volume_get] must write into an attachment:
    the name of the server that nova returns for its [server_id], or the
    generic name when it has no [server_id]. *)
Definition instance_name_of (api : endpoints) (request : request)
    (attachment : gmap string string) (name : string) : Prop :=
  match attachment !! "server_id" with
  | Some server_id =>
      exists instance,
        nova_server_get api request server_id = Ok instance /\
        assoc "name" (fields_of instance) = Some name
  | None => name = "Unknown instance"
  end.

(** A value that is present and not the empty string. *)
Definition nonempty (x : option string) : Prop :=
  exists v, x = Some v /\ v <> "".

(** The outcome of [get_data] as the table sees it: the rows and what
    [has_more_data] and [has_prev_data] now answer. *)
Definition table_page (out : res loc * state)
    : option (list obj * bool * bool) :=
  match out with
  | (Ok r, s') =>
      (fun l => (l, _has_more_data s', _has_prev_data s')) <$> heap s' !! r
  | (Raise _, _) => None
  end.

(** A service with two checkpoints and one replication, and one whose
    replication listing is down. *)
Definition checkpoint_of (name replication : string) : obj :=
  Obj [("id", name); ("replication_id", replication)] [].

Definition replication_of (name master slave : string) : obj :=
  Obj [("id", name); ("master_volume", master); ("slave_volume", slave)] [].

Definition sample_checkpoints : list obj :=
  [checkpoint_of "c2" "r1"; checkpoint_of "c1" "r9"].

Definition sample_replications : list obj :=
  [replication_of "r1" "v1" "v2"].

Definition sample_client : client :=
  Client (backend_list five_records) (backend_list sample_checkpoints)
         (backend_list sample_replications).

Definition sample_request : request :=
  Request ∅ 2 (Ok sample_client) (fun _ => Ok tt).



Definition no_replications_client : client :=
  Client (backend_list five_records) (backend_list sample_checkpoints)
         (fun _ => Raise (Remote "503 Service Unavailable")).

Definition no_replications_request : request :=
  Request ∅ 2 (Ok no_replications_client) (fun _ => Ok tt).

Definition sample_endpoints : endpoints :=
  Endpoints (fun _ => backend_list [record "v1"; record "v2"])
            (fun _ => backend_list [])
            (fun _ _ =>
               Ok (VolumeData (record "v1")
                     [ {[ "server_id" := "i-1" ]}; {[ "device" := "/dev/vdb" ]} ]))
            (fun _ server_id => Ok (Obj [("name", "web-" +:+ server_id)] [])).

(** Endpoints whose snapshot listing holds the five records. *)
Definition snapshot_endpoints : endpoints :=
  Endpoints (volumes_list sample_endpoints)
            (fun _ => backend_list five_records)
            (volumes_get sample_endpoints)
            (nova_server_get sample_endpoints).

(** The same endpoints with nova down. *)
Definition nova_down_endpoints : endpoints :=
  Endpoints (volumes_list sample_endpoints) (snapshots_list sample_endpoints)
            (volumes_get sample_endpoints)
            (fun _ _ => Raise (Remote "nova: 503 Service Unavailable")).

Definition no_service_request : request :=
  Request ∅ 2 (Raise (Remote "no sg-service endpoint")) (fun _ => Ok tt).

Definition VolumeReplicationsTable_meta : meta := Meta "marker" "prev_marker".

Definition ReplicationsView (request : request) : view :=
  View (Some VolumeReplicationsTable_meta) None request.

(** ** Running the list primitives *)

Lemma run_bind {X Y} (m : M X) (f : X -> M Y) s :
  run (m ≫= f) s =
    match run m s with
    | (Ok x, s') => run (f x) s'
    | (Raise e, s') => (Raise e, s')
    end.
Proof. reflexivity. Qed.

Lemma run_try_block_cons {L} (stmt : L -> M L) rest handler locals s :
  run (try_block (stmt :: rest) handler locals) s =
    match run (stmt locals) s with
    | (Ok locals', s') => run (try_block rest handler locals') s'
    | (Raise e, s') => run (handler e ;; mret locals) s'
    end.
Proof. reflexivity. Qed.

Lemma run_ret {X} (x : X) s : run (mret x) s = (Ok x, s).
Proof. reflexivity. Qed.

Lemma run_outcome {X} (r : res X) s : run (outcome r) s = (r, s).
Proof. reflexivity. Qed.

Lemma run_PagedTableMixin_init s :
  run PagedTableMixin_init s = (Ok tt, State (heap s) false false (messages s)).
Proof. reflexivity. Qed.

Lemma run_new_list s :
  run new_list s =
    (Ok (fresh (dom (heap s))),
     set_heap (<[fresh (dom (heap s)) := []]> (heap s)) s).
Proof. reflexivity. Qed.

Lemma run_contents r l s :
  heap s !! r = Some l -> run (contents r) s = (Ok l, s).
Proof. intros Hr. unfold run, contents. by rewrite Hr. Qed.

Lemma run_queue_message e message s :
  run (queue_message e message) s =
    (Ok tt, State (heap s) (_has_more_data s) (_has_prev_data s)
                  (messages s ++ [(e, message)])).
Proof. reflexivity. Qed.

Lemma set_heap_id s : set_heap (heap s) s = s.
Proof. by destruct s. Qed.

(** Creating a list leaves the existing ones alone. *)
Lemma lookup_fresh_insert (h : gmap loc (list obj)) r l l' :
  h !! r = Some l -> <[fresh (dom h) := l']> h !! r = Some l.
Proof.
  intros Hr. rewrite lookup_insert_ne; [done|].
  intros Heq. apply (is_fresh (dom h)). rewrite Heq.
  apply elem_of_dom. eauto.
Qed.

Lemma run_update_pagination s r l page_size marker sort_dir :
  heap s !! r = Some l ->
  run (update_pagination r page_size marker sort_dir) s =
    (with_ref r (paginated l page_size marker sort_dir).1,
     set_heap (<[r := (paginated l page_size marker sort_dir).2]> (heap s)) s).
Proof.
  intros Hr.
  unfold run, update_pagination, paginated, len, contents, pop,
    mbind, M_bind, mret, M_ret.
  rewrite Hr. simpl.
  destruct (Z.of_nat (length l) >? page_size)%Z.
  - rewrite Hr. destruct (last l); simpl.
    + by destruct marker.
    + by rewrite insert_id, set_heap_id.
  - rewrite insert_id, set_heap_id by done.
    by destruct (sort_dir =? "asc"), marker.
Qed.

Lemma page_update_pagination s r l page_size marker sort_dir :
  heap s !! r = Some l ->
  page (run (update_pagination r page_size marker sort_dir) s) =
    match paginated l page_size marker sort_dir with
    | (Ok (more, prev), l') => Some (l', more, prev)
    | (Raise _, _) => None
    end.
Proof.
  intros Hr. rewrite (run_update_pagination _ _ _ _ _ _ Hr).
  destruct (paginated l page_size marker sort_dir) as [[[more prev]|e] l'];
    simpl; [|done].
  by rewrite lookup_insert_eq.
Qed.

(** A list longer than a non-negative page size, or any non-empty list, has
    a last element to pop. *)
Lemma overshoot_has_last (l : list obj) page_size :
  (Z.of_nat (length l) >? page_size)%Z = true ->
  (0 <= page_size)%Z \/ l <> [] ->
  exists x, last l = Some x /\ l = removelast l ++ [x].
Proof.
  intros Hgt Hne.
  assert (l <> []) as Hl.
  { destruct Hne as [Hps|]; [|done]. intros ->. simpl in Hgt. lia. }
  destruct (last l) as [x|] eqn:Hlast.
  - exists x. split; [done|].
    apply last_Some in Hlast as [l' ->].
    by rewrite removelast_last.
  - by apply last_None in Hlast.
Qed.

Lemma length_removelast_Z (l : list obj) :
  l <> [] -> Z.of_nat (length (removelast l)) = (Z.of_nat (length l) - 1)%Z.
Proof.
  intros Hl. destruct (exists_last Hl) as (l' & x & ->).
  rewrite removelast_last, length_app. simpl. lia.
Qed.

(** Whenever the pop cannot fail, [update_pagination] returns a page, and
    the page is the following. *)
Lemma update_pagination_returns s r l page_size marker sort_dir
    (P : list obj -> bool -> bool -> Prop) :
  heap s !! r = Some l ->
  (0 <= page_size)%Z \/ l <> [] ->
  (let over := (Z.of_nat (length l) >? page_size)%Z in
   P (if over then removelast l else l)
     (over || (sort_dir =? "asc") && is_not_None marker)
     (if over then is_not_None marker
      else negb (sort_dir =? "asc") && is_not_None marker)) ->
  returns_page (run (update_pagination r page_size marker sort_dir) s) P.
Proof.
  intros Hr Hpop HP. unfold returns_page.
  rewrite (page_update_pagination _ _ _ _ _ _ Hr). unfold paginated.
  simpl in HP.
  destruct (Z.of_nat (length l) >? page_size)%Z eqn:Hgt.
  - destruct (overshoot_has_last l page_size Hgt Hpop) as (x & -> & _).
    eauto.
  - eauto.
Qed.

(** ** The trim-and-flag algorithm *)

(** C1: for a positive page size, [update_pagination] does exactly what the
    trim-and-flag algorithm of the design prescribes: it returns the list
    object it was given, whose contents and the two flags are those of
    [trim_and_flag], and touches nothing else. *)
Theorem update_pagination_trim_and_flag s entities fetched page_size marker
    sort_dir :
  heap s !! entities = Some fetched ->
  (0 < page_size)%Z ->
  let '(items, has_more, has_prev) :=
    trim_and_flag fetched page_size marker sort_dir in
  run (update_pagination entities page_size marker sort_dir) s =
    (Ok (entities, has_more, has_prev),
     set_heap (<[entities := items]> (heap s)) s).
Proof.
  intros Hr Hps. rewrite (run_update_pagination _ _ _ _ _ _ Hr).
  unfold trim_and_flag, paginated.
  destruct (Z.of_nat (length fetched) >? page_size)%Z eqn:Hgt.
  - assert ((0 <= page_size)%Z \/ fetched <> []) as Hpop by (left; lia).
    by destruct (overshoot_has_last fetched page_size Hgt Hpop) as (x & -> & _).
  - by destruct (sort_dir =? "asc"), marker.
Qed.

Lemma update_pagination_trim_and_flag_witness :
  heap (heap_with fetched_edc) !! 1%positive = Some fetched_edc /\
  (0 < 2)%Z /\
  run (update_pagination 1%positive 2 (Some "f") "desc")
      (heap_with fetched_edc) =
    (Ok (1%positive, true, true),
     set_heap (<[1%positive := [record "e"; record "d"]]>
                 (heap (heap_with fetched_edc))) (heap_with fetched_edc)).
Proof.
  split; [reflexivity|]. split; [lia|].
  exact (update_pagination_trim_and_flag (heap_with fetched_edc) 1%positive
           fetched_edc 2 (Some "f") "desc" eq_refl ltac:(lia)).
Defined.

(** C6: in the ascending direction with a marker and no overshoot, the
    result is [has_more = true], [has_prev = false], and the list is left
    as it was. *)
Theorem update_pagination_asc_marker s entities fetched page_size m sort_dir :
  heap s !! entities = Some fetched ->
  sort_dir = "asc" ->
  (Z.of_nat (length fetched) <= page_size)%Z ->
  run (update_pagination entities page_size (Some m) sort_dir) s =
    (Ok (entities, true, false), s).
Proof.
  intros Hr -> Hle. rewrite (run_update_pagination _ _ _ _ _ _ Hr).
  unfold paginated.
  destruct (Z.of_nat (length fetched) >? page_size)%Z eqn:Hgt; [lia|].
  simpl. by rewrite insert_id, set_heap_id.
Qed.

Lemma update_pagination_asc_marker_witness :
  heap (heap_with fetched_cd) !! 1%positive = Some fetched_cd /\
  "asc" = "asc" /\
  (Z.of_nat (length fetched_cd) <= 2)%Z /\
  run (update_pagination 1%positive 2 (Some "b") "asc") (heap_with fetched_cd) =
    (Ok (1%positive, true, false), heap_with fetched_cd).
Proof.
  split; [reflexivity|]. split; [reflexivity|]. split; [simpl; lia|].
  exact (update_pagination_asc_marker (heap_with fetched_cd) 1%positive
           fetched_cd 2 "b" "asc" eq_refl eq_refl ltac:(simpl; lia)).
Defined.

(** C2, as stated, fails: three records fetched for a page size of one
    leave two items. *)
Lemma update_pagination_exceeds_page_size :
  ~ returns_page
      (run (update_pagination 1%positive 1 None "desc") (heap_with fetched_edc))
      (fun items _ _ => (Z.of_nat (length items) <= 1)%Z).
Proof.
  intros (items & more & prev & Hpage & Hlen).
  rewrite (page_update_pagination _ _ fetched_edc) in Hpage by reflexivity.
  vm_compute in Hpage. injection Hpage as <- _ _. simpl in Hlen. lia.
Qed.

(** C2, amended: [update_pagination] drops at most one record, the last.
    A list of at most [page_size] records is returned unchanged and a
    longer one loses exactly its last record, so the items number at most
    [page_size] when the fetched list has at most [page_size + 1] records,
    the limit the fetch asks for, and one less than the fetched count (more
    than [page_size]) when it has more. *)
Theorem update_pagination_length s entities fetched page_size marker sort_dir :
  heap s !! entities = Some fetched ->
  (0 < page_size)%Z ->
  returns_page (run (update_pagination entities page_size marker sort_dir) s)
    (fun items _ _ =>
       ((Z.of_nat (length fetched) <= page_size)%Z -> items = fetched) /\
       ((page_size < Z.of_nat (length fetched))%Z ->
        (exists x, last fetched = Some x /\ fetched = items ++ [x]) /\
        Z.of_nat (length items) = (Z.of_nat (length fetched) - 1)%Z) /\
       ((Z.of_nat (length fetched) <= page_size + 1)%Z ->
        (Z.of_nat (length items) <= page_size)%Z) /\
       ((page_size + 1 < Z.of_nat (length fetched))%Z ->
        (page_size < Z.of_nat (length items))%Z)).
Proof.
  intros Hr Hps. apply (update_pagination_returns _ _ _ _ _ _ _ Hr); [lia|].
  simpl. destruct (Z.of_nat (length fetched) >? page_size)%Z eqn:Hgt.
  - assert (fetched <> []) as Hne by (intros ->; simpl in Hgt; lia).
    assert ((0 <= page_size)%Z \/ fetched <> []) as Hpop by (by right).
    destruct (overshoot_has_last fetched page_size Hgt Hpop)
      as (x & Hlast & Hx).
    rewrite length_removelast_Z by done.
    split; [lia|]. split; [eauto|]. split; lia.
  - split; [done|]. split; [lia|]. split; lia.
Qed.

Lemma update_pagination_length_witness :
  heap (heap_with fetched_edc) !! 1%positive = Some fetched_edc /\
  (0 < 2)%Z /\
  returns_page
    (run (update_pagination 1%positive 2 None "desc") (heap_with fetched_edc))
    (fun items _ _ =>
       ((Z.of_nat (length fetched_edc) <= 2)%Z -> items = fetched_edc) /\
       ((2 < Z.of_nat (length fetched_edc))%Z ->
        (exists x, last fetched_edc = Some x /\ fetched_edc = items ++ [x]) /\
        Z.of_nat (length items) = (Z.of_nat (length fetched_edc) - 1)%Z) /\
       ((Z.of_nat (length fetched_edc) <= 2 + 1)%Z ->
        (Z.of_nat (length items) <= 2)%Z) /\
       ((2 + 1 < Z.of_nat (length fetched_edc))%Z ->
        (2 < Z.of_nat (length items))%Z)).
Proof.
  split; [reflexivity|]. split; [lia|].
  exact (update_pagination_length (heap_with fetched_edc) 1%positive
           fetched_edc 2 None "desc" eq_refl ltac:(lia)).
Defined.

(** C5, as stated, fails: a fetch of exactly [page_size] records in the
    ascending direction with a marker reports [has_more]. *)
Lemma exact_page_asc_marker_has_more :
  ~ returns_page
      (run (update_pagination 1%positive 2 (Some "b") "asc")
           (heap_with fetched_cd))
      (fun _ has_more _ =>
         Z.of_nat (length fetched_cd) = 2%Z -> has_more = false).
Proof.
  intros (items & more & prev & Hpage & Hmore).
  rewrite (page_update_pagination _ _ fetched_cd) in Hpage by reflexivity.
  vm_compute in Hpage. injection Hpage as _ <- _.
  by specialize (Hmore eq_refl).
Qed.

(** C5, amended: a fetch of exactly [page_size] records is returned whole
    and reports [has_more] only in the ascending direction with a marker;
    a fetch of [page_size + 1] records reports [has_more] and is returned
    without its last, overshoot record. *)
Theorem update_pagination_boundary s entities fetched page_size marker
    sort_dir :
  heap s !! entities = Some fetched ->
  (0 < page_size)%Z ->
  returns_page (run (update_pagination entities page_size marker sort_dir) s)
    (fun items has_more _ =>
       (Z.of_nat (length fetched) = page_size ->
        items = fetched /\
        has_more = (sort_dir =? "asc") && is_not_None marker) /\
       (Z.of_nat (length fetched) = (page_size + 1)%Z ->
        has_more = true /\
        Z.of_nat (length items) = page_size /\
        exists overshoot, fetched = items ++ [overshoot])).
Proof.
  intros Hr Hps. apply (update_pagination_returns _ _ _ _ _ _ _ Hr); [lia|].
  simpl. destruct (Z.of_nat (length fetched) >? page_size)%Z eqn:Hgt.
  - split; [lia|]. intros Hlen.
    destruct (overshoot_has_last fetched page_size Hgt) as (x & _ & Hx);
      [lia|].
    assert (fetched <> []) by (intros ->; simpl in Hgt; lia).
    rewrite length_removelast_Z by done. eauto with lia.
  - split; [done|lia].
Qed.

Lemma update_pagination_boundary_witness :
  heap (heap_with fetched_edc) !! 1%positive = Some fetched_edc /\
  (0 < 2)%Z /\
  returns_page
    (run (update_pagination 1%positive 2 None "desc") (heap_with fetched_edc))
    (fun items has_more _ =>
       (Z.of_nat (length fetched_edc) = 2%Z ->
        items = fetched_edc /\
        has_more = ("desc" =? "asc") && is_not_None (@None string)) /\
       (Z.of_nat (length fetched_edc) = (2 + 1)%Z ->
        has_more = true /\
        Z.of_nat (length items) = 2%Z /\
        exists overshoot, fetched_edc = items ++ [overshoot])).
Proof.
  split; [reflexivity|]. split; [lia|].
  exact (update_pagination_boundary (heap_with fetched_edc) 1%positive
           fetched_edc 2 None "desc" eq_refl ltac:(lia)).
Defined.

(** C9: without a marker [update_pagination] never reports a previous page:
    no run returns [has_prev = true], and for every non-negative page size
    (or non-empty list) the run does return, with [has_prev = false]. *)
Theorem update_pagination_no_marker_no_prev s entities fetched page_size
    sort_dir :
  heap s !! entities = Some fetched ->
  (forall r has_more has_prev s',
     run (update_pagination entities page_size None sort_dir) s =
       (Ok (r, has_more, has_prev), s') ->
     has_prev = false) /\
  ((0 <= page_size)%Z \/ fetched <> [] ->
   returns_page (run (update_pagination entities page_size None sort_dir) s)
     (fun _ _ has_prev => has_prev = false)).
Proof.
  intros Hr. split.
  - intros r more prev s'. rewrite (run_update_pagination _ _ _ _ _ _ Hr).
    unfold paginated.
    destruct (Z.of_nat (length fetched) >? page_size)%Z; [destruct (last _)|];
      simpl; try destruct (sort_dir =? "asc"); simpl; congruence.
  - intros Hpop. apply (update_pagination_returns _ _ _ _ _ _ _ Hr Hpop).
    simpl. by destruct (_ >? _)%Z, (sort_dir =? "asc").
Qed.

Lemma update_pagination_no_marker_no_prev_witness :
  heap (heap_with fetched_edc) !! 1%positive = Some fetched_edc /\
  returns_page
    (run (update_pagination 1%positive 2 None "asc") (heap_with fetched_edc))
    (fun _ _ has_prev => has_prev = false).
Proof.
  split; [reflexivity|].
  refine (proj2 (update_pagination_no_marker_no_prev (heap_with fetched_edc)
                   1%positive fetched_edc 2 "asc" eq_refl) _).
  left. lia.
Defined.

(** C10: the items are the fetched list, in order, with at most its last
    record removed: one record, the last, when the count exceeds
    [page_size], none otherwise. *)
Theorem update_pagination_prefix s entities fetched page_size marker sort_dir :
  heap s !! entities = Some fetched ->
  (0 < page_size)%Z ->
  returns_page (run (update_pagination entities page_size marker sort_dir) s)
    (fun items _ _ =>
       items `prefix_of` fetched /\
       ((page_size < Z.of_nat (length fetched))%Z ->
        exists x, last fetched = Some x /\ fetched = items ++ [x]) /\
       ((Z.of_nat (length fetched) <= page_size)%Z -> items = fetched)).
Proof.
  intros Hr Hps. apply (update_pagination_returns _ _ _ _ _ _ _ Hr); [lia|].
  simpl. destruct (Z.of_nat (length fetched) >? page_size)%Z eqn:Hgt.
  - destruct (overshoot_has_last fetched page_size Hgt) as (x & Hlast & Hx);
      [lia|].
    split; [by exists [x]|]. split; [eauto|lia].
  - split; [done|]. split; [lia|done].
Qed.

Lemma update_pagination_prefix_witness :
  heap (heap_with fetched_edc) !! 1%positive = Some fetched_edc /\
  (0 < 2)%Z /\
  returns_page
    (run (update_pagination 1%positive 2 None "desc") (heap_with fetched_edc))
    (fun items _ _ =>
       items `prefix_of` fetched_edc /\
       ((2 < Z.of_nat (length fetched_edc))%Z ->
        exists x, last fetched_edc = Some x /\ fetched_edc = items ++ [x]) /\
       ((Z.of_nat (length fetched_edc) <= 2)%Z -> items = fetched_edc)).
Proof.
  split; [reflexivity|]. split; [lia|].
  exact (update_pagination_prefix (heap_with fetched_edc) 1%positive
           fetched_edc 2 None "desc" eq_refl ltac:(lia)).
Defined.

(** ** Marker resolution *)

Lemma run_table_meta self m s :
  has_meta self m ->
  run (try_except (table_class_meta self) is_AttributeError
         (fun _ => table_classes_0_meta self)) s = (Ok m, s).
Proof.
  unfold run, try_except, table_class_meta, table_classes_0_meta.
  intros [->|[-> [rest ->]]]; reflexivity.
Qed.

Lemma run_get_marker_meta self m s :
  has_meta self m ->
  run (_get_marker self) s =
    (Ok (let prev_marker := GET (view_request self) !! prev_pagination_param m in
         if truthy prev_marker then (prev_marker, "asc")
         else
           let marker := GET (view_request self) !! pagination_param m in
           if truthy marker then (marker, "desc") else (None, "desc")), s).
Proof.
  intros Hm. unfold run, _get_marker, mbind, M_bind.
  pose proof (run_table_meta self m s Hm) as Hrun. unfold run in Hrun.
  rewrite Hrun. simpl.
  by destruct (truthy _); [|destruct (truthy _)].
Qed.

Lemma run_get_marker self s :
  run (_get_marker self) s = (resolved_marker self, s).
Proof.
  unfold resolved_marker, run, _get_marker, mbind, M_bind, try_except,
    table_class_meta, table_classes_0_meta.
  destruct (table_class self) as [m|]; simpl.
  - by destruct (truthy _); [|destruct (truthy _)].
  - destruct (table_classes self) as [[|m rest]|]; simpl; try done.
    by destruct (truthy _); [|destruct (truthy _)].
Qed.

Lemma truthy_given query name :
  truthy (query !! name) = true <-> exists v, given query name v.
Proof.
  unfold truthy, given. destruct (query !! name) as [v|].
  - destruct (String.eqb_spec v ""); simpl; split; try done.
    + by intros (? & [= <-] & ?).
    + eauto.
  - split; [done|]. by intros (? & ? & ?).
Qed.

(** C7, as stated, fails: a prev-marker that is present but empty is passed
    over, and the request is resolved as a first page. *)
Lemma empty_prev_marker_not_resolved :
  (run (_get_marker (CheckpointsView (backend_request [] 20 empty_prev_query)))
       empty_state).1 <>
    Ok (resolution_by_presence empty_prev_query VolumeCheckpointsTable_meta).
Proof. vm_compute. discriminate. Qed.

(** C7, amended: [_get_marker] resolves the two query parameters by their
    truth value, so a parameter counts when it is present and non-empty:
    such a prev-marker gives [(prev-marker, "asc")]; otherwise such a
    next-marker gives [(next-marker, "desc")]; otherwise the result is
    [(None, "desc")]. *)
Theorem get_marker_resolution self m s :
  has_meta self m ->
  let query := GET (view_request self) in
  let prev_param := prev_pagination_param m in
  let next_param := pagination_param m in
  (forall p, given query prev_param p ->
     run (_get_marker self) s = (Ok (Some p, "asc"), s)) /\
  (forall n, ~ (exists p, given query prev_param p) ->
     given query next_param n ->
     run (_get_marker self) s = (Ok (Some n, "desc"), s)) /\
  (~ (exists p, given query prev_param p) ->
   ~ (exists n, given query next_param n) ->
   run (_get_marker self) s = (Ok (None, "desc"), s)).
Proof.
  intros Hm query prev_param next_param.
  rewrite (run_get_marker_meta self m s Hm). fold query prev_param next_param.
  simpl.
  destruct (truthy (query !! prev_param)) eqn:Hprev.
  - apply truthy_given in Hprev as Hgiven.
    split; [|split]; [|by intros|by intros].
    intros p [Hp _]. by rewrite Hp.
  - assert (~ exists p, given query prev_param p) as Hno.
    { intros H%truthy_given. congruence. }
    split; [by intros p Hp; destruct Hno; eauto|].
    destruct (truthy (query !! next_param)) eqn:Hnext.
    + apply truthy_given in Hnext as Hgiven.
      split; [|by intros].
      intros n _ [Hn _]. by rewrite Hn.
    + assert (~ exists n, given query next_param n) as Hno'.
      { intros H%truthy_given. congruence. }
      split; [by intros n _ Hn; destruct Hno'; eauto|done].
Qed.

Lemma get_marker_resolution_witness :
  has_meta (CheckpointsView (backend_request [] 20 prev_query))
           VolumeCheckpointsTable_meta /\
  given prev_query "prev_checkpoint_marker" "d" /\
  run (_get_marker (CheckpointsView (backend_request [] 20 prev_query)))
      empty_state = (Ok (Some "d", "asc"), empty_state).
Proof.
  assert (has_meta (CheckpointsView (backend_request [] 20 prev_query))
                   VolumeCheckpointsTable_meta) as Hm by (left; reflexivity).
  assert (given prev_query "prev_checkpoint_marker" "d") as Hd
    by (split; [reflexivity|discriminate]).
  split; [exact Hm|]. split; [exact Hd|].
  exact (proj1 (get_marker_resolution
                  (CheckpointsView (backend_request [] 20 prev_query))
                  VolumeCheckpointsTable_meta empty_state Hm) "d" Hd).
Defined.

(** ** The paged fetches *)

Lemma run_for_each_append s r l (wrap : obj -> obj) xs :
  heap s !! r = Some l ->
  run (for_each xs (fun x => append r (wrap x))) s =
    (Ok tt, set_heap (<[r := l ++ map wrap xs]> (heap s)) s).
Proof.
  revert s l. induction xs as [|x xs IH]; intros s l Hr; simpl.
  - by rewrite app_nil_r, insert_id, set_heap_id.
  - unfold run, mbind, M_bind in *. unfold append at 1. rewrite Hr.
    rewrite (IH _ (l ++ [wrap x])) by (simpl; apply lookup_insert_eq).
    simpl. by rewrite insert_insert_eq, <- app_assoc.
Qed.

Lemma run_list_paged endpoint wrap request search_opts marker paginate
    sort_dir s :
  let r := fresh (dom (heap s)) in
  let result :=
    fetched_page endpoint wrap request search_opts marker paginate sort_dir in
  run (list_paged endpoint wrap request search_opts marker paginate sort_dir) s
    = (with_ref r result.1, set_heap (<[r := result.2]> (heap s)) s).
Proof.
  intros r result. subst result.
  unfold run, list_paged, fetched_page, new_list, sgsclient, outcome,
    mbind, M_bind, mret, M_ret.
  fold r. destruct (service request) as [c|e]; [|done].
  set (s1 := set_heap (<[r := []]> (heap s)) s).
  assert (heap s1 !! r = Some []) as Hr by apply lookup_insert_eq.
  destruct paginate.
  - destruct (endpoint c _) as [xs|e]; [|done].
    pose proof (run_for_each_append s1 r [] wrap xs Hr) as Hfor.
    unfold run, mbind, M_bind in Hfor. rewrite Hfor. clear Hfor.
    simpl app.
    match goal with |- update_pagination _ _ _ _ ?s2 = _ =>
      pose proof (run_update_pagination s2 r (map wrap xs)
                    (get_page_size request) marker sort_dir) as Hup
    end.
    unfold run in Hup. rewrite Hup by apply lookup_insert_eq. clear Hup.
    subst s1. simpl. by rewrite !insert_insert_eq.
  - destruct (endpoint c _) as [xs|e]; [|done].
    pose proof (run_for_each_append s1 r [] (fun x => x) xs Hr) as Hfor.
    unfold run, mbind, M_bind in Hfor. rewrite Hfor. clear Hfor.
    subst s1. simpl. by rewrite insert_insert_eq, map_id.
Qed.

Lemma volume_backup_list_paged_shape request marker paginate sort_dir :
  volume_backup_list_paged request marker paginate sort_dir =
  list_paged backups_list VolumeBackup request None marker paginate sort_dir.
Proof. reflexivity. Qed.

Lemma volume_checkpoint_list_paged_shape request search_opts marker paginate
    sort_dir :
  volume_checkpoint_list_paged request search_opts marker paginate sort_dir =
  list_paged checkpoints_list (fun x => x) request search_opts marker paginate
    sort_dir.
Proof. reflexivity. Qed.

Lemma removelast_map_take (wrap : obj -> obj) (l : list obj) n :
  n < length l ->
  removelast (map wrap (take (S n) l)) = map wrap (take n l).
Proof.
  intros Hn. rewrite <- (@removelast_firstn _ n l Hn).
  generalize (firstn (S n) l). intros k.
  induction k as [|x [|y k] IH]; [done|done|].
  change (wrap x :: removelast (map wrap (y :: k)) =
          wrap x :: map wrap (removelast (y :: k))).
  by rewrite IH.
Qed.

(** C4: a first-page request (no cursor, descending) against a service that
    holds [N] records and answers the request for [page_size + 1] of them
    returns the [min N page_size] newest records, with
    [has_more = (N > page_size)] and [has_prev = false]. *)
Theorem first_page request c_client newest_first s :
  let page_size := get_page_size request in
  let N := Z.of_nat (length newest_first) in
  service request = Ok c_client ->
  (1 <= page_size)%Z ->
  backups_list c_client
    (ListQuery None (Some (page_size + 1)%Z) None (Some "created_at:desc")) =
    Ok (take (Z.to_nat (page_size + 1)) newest_first) ->
  returns_page (run (volume_backup_list_paged request None true "desc") s)
    (fun items has_more has_prev =>
       items = map VolumeBackup (take (Z.to_nat page_size) newest_first) /\
       Z.of_nat (length items) = Z.min N page_size /\
       has_more = (N >? page_size)%Z /\
       has_prev = false).
Proof.
  intros page_size N Hservice Hps Hlist.
  rewrite volume_backup_list_paged_shape.
  pose proof (run_list_paged backups_list VolumeBackup request None None true
                "desc" s) as Hrun.
  simpl in Hrun. rewrite Hrun. clear Hrun.
  unfold fetched_page. rewrite Hservice. fold page_size.
  change ("created_at:" +:+ "desc") with "created_at:desc". rewrite Hlist.
  subst N. clearbody page_size. cbv zeta.
  set (N := Z.of_nat (length newest_first)).
  unfold returns_page, page, paginated.
  rewrite length_map, length_take.
  replace (Z.to_nat (page_size + 1)) with (S (Z.to_nat page_size)) by lia.
  destruct (decide (page_size < N)%Z) as [Hlt|Hge].
  - assert (Z.to_nat page_size < length newest_first) as Hn by lia.
    replace (Z.of_nat (S (Z.to_nat page_size) `min` length newest_first)
               >? page_size)%Z with true by lia.
    destruct (last _) as [x|] eqn:Hlast.
    + simpl. rewrite lookup_insert_eq. simpl.
      do 3 eexists. split; [done|].
      rewrite removelast_map_take by done.
      rewrite length_map, length_take.
      split; [done|]. split; [lia|]. split; [symmetry; lia|done].
    + apply last_None in Hlast. apply (f_equal length) in Hlast.
      rewrite length_map, length_take in Hlast. cbn [length] in Hlast. lia.
  - replace (Z.of_nat (S (Z.to_nat page_size) `min` length newest_first)
               >? page_size)%Z with false by lia.
    simpl. rewrite lookup_insert_eq. simpl.
    do 3 eexists. split; [done|].
    rewrite !take_ge by lia. rewrite length_map.
    split; [done|]. split; [lia|]. split; [symmetry; lia|done].
Qed.

Lemma first_page_witness :
  service first_page_request = Ok (Client (backend_list five_records)
                                          (backend_list five_records)
                                          (backend_list [])) /\
  (1 <= get_page_size first_page_request)%Z /\
  returns_page
    (run (volume_backup_list_paged first_page_request None true "desc")
         empty_state)
    (fun items has_more has_prev =>
       items = map VolumeBackup (take (Z.to_nat 2) five_records) /\
       Z.of_nat (length items) = Z.min (Z.of_nat (length five_records)) 2 /\
       has_more = (Z.of_nat (length five_records) >? 2)%Z /\
       has_prev = false).
Proof.
  split; [reflexivity|]. split; [simpl; lia|].
  exact (first_page first_page_request _ five_records empty_state
           eq_refl ltac:(simpl; lia) eq_refl).
Defined.

(** C8: fetching the same page twice from an unchanged service gives the
    same output.  The second run starts in the state the first one left;
    its outcome (exception, or items and flags) is that of the first, and
    the list the first run returned is not disturbed by the second. *)
Theorem repeated_fetch_same_output request marker paginate sort_dir s :
  let fetch := volume_backup_list_paged request marker paginate sort_dir in
  let first := run fetch s in
  let second := run fetch first.2 in
  observed second = observed first /\
  observed (first.1, second.2) = observed first.
Proof.
  intros fetch first second. subst second first fetch.
  rewrite volume_backup_list_paged_shape.
  pose proof (run_list_paged backups_list VolumeBackup request None marker
                paginate sort_dir) as Hrun.
  cbv zeta in Hrun. rewrite !Hrun. clear Hrun.
  destruct (fetched_page _ _ _ _ _ _ _) as [[[more prev]|e] l]; simpl; [|done].
  rewrite !lookup_insert_eq.
  by rewrite (lookup_fresh_insert _ _ l) by apply lookup_insert_eq.
Qed.

(** ** A failing list call *)






(** ** The scenarios of the design, run on the model service *)

(** Scenario A: first page of size two over five records. *)
Example scenario_A :
  page (run (volume_backup_list_paged first_page_request None true "desc")
            empty_state) =
    Some ([VolumeBackup (record "e"); VolumeBackup (record "d")], true, false).
Proof. vm_compute. reflexivity. Qed.

(** Scenario B: the next page, after [d]. *)
Example scenario_B :
  page (run (volume_backup_list_paged first_page_request (Some "d") true "desc")
            empty_state) =
    Some ([VolumeBackup (record "c"); VolumeBackup (record "b")], true, true).
Proof. vm_compute. reflexivity. Qed.

(** Scenario C: the last page, after [b]. *)
Example scenario_C :
  page (run (volume_backup_list_paged first_page_request (Some "b") true "desc")
            empty_state) =
    Some ([VolumeBackup (record "a")], false, true).
Proof. vm_compute. reflexivity. Qed.

(** Scenario D: a fetch of [c; d] in the ascending direction with a marker. *)
Example scenario_D :
  page (run (update_pagination 1%positive 2 (Some "b") "asc")
            (heap_with fetched_cd)) =
    Some (fetched_cd, true, false).
Proof. vm_compute. reflexivity. Qed.

(** The list that [update_pagination] returns is the caller's own: a second
    call on the same list object sees the trimmed list. *)
Example update_pagination_same_object :
  let first := run (update_pagination 1%positive 2 None "desc")
                   (heap_with fetched_edc) in
  let second := run (update_pagination 1%positive 2 None "desc") first.2 in
  page first = Some ([record "e"; record "d"], true, false) /\
  page second = Some ([record "e"; record "d"], false, false).
Proof. vm_compute. split; reflexivity. Qed.

(** * Further properties of the code *)

(** ** [update_pagination]: errors, frame, reading of the flags *)

(** The only way [update_pagination] fails is the pop of an empty list,
    which needs a negative page size; the state is then left as it was.
    In every other case it returns the reference it was given. *)
Theorem update_pagination_raises_iff s entities fetched page_size marker
    sort_dir :
  heap s !! entities = Some fetched ->
  let out := run (update_pagination entities page_size marker sort_dir) s in
  (fetched = [] /\ (page_size < 0)%Z -> out = (Raise IndexError, s)) /\
  (~ (fetched = [] /\ (page_size < 0)%Z) ->
   exists has_more has_prev s', out = (Ok (entities, has_more, has_prev), s')).
Proof.
  intros Hr out. subst out. rewrite (run_update_pagination _ _ _ _ _ _ Hr).
  unfold paginated. split.
  - intros [-> Hneg]. cbn [length last].
    replace (Z.of_nat 0 >? page_size)%Z with true by lia. simpl.
    by rewrite insert_id, set_heap_id.
  - intros Hok.
    destruct (Z.of_nat (length fetched) >? page_size)%Z eqn:Hgt; [|simpl; eauto].
    destruct (last fetched) as [x|] eqn:Hlast; [simpl; eauto|].
    apply last_None in Hlast. subst fetched. simpl in Hgt.
    destruct Hok. split; [done|lia].
Qed.

Lemma update_pagination_raises_iff_witness :
  heap (heap_with []) !! 1%positive = Some [] /\
  ([] = @nil obj /\ (-1 < 0)%Z) /\
  run (update_pagination 1%positive (-1) None "desc") (heap_with []) =
    (Raise IndexError, heap_with []).
Proof.
  assert (@nil obj = [] /\ (-1 < 0)%Z) as Hempty by (split; [reflexivity|lia]).
  split; [reflexivity|]. split; [exact Hempty|].
  exact (proj1 (update_pagination_raises_iff (heap_with []) 1%positive []
                  (-1) None "desc" eq_refl) Hempty).
Defined.

(** Whatever the outcome, [update_pagination] touches nothing but the list
    it was given: every other list, the view's flags and the queued
    messages stay as they were, and no list is created or deleted. *)
Theorem update_pagination_frame s entities fetched page_size marker sort_dir :
  heap s !! entities = Some fetched ->
  let out := run (update_pagination entities page_size marker sort_dir) s in
  (forall r, r <> entities -> heap out.2 !! r = heap s !! r) /\
  dom (heap out.2) = dom (heap s) /\
  _has_more_data out.2 = _has_more_data s /\
  _has_prev_data out.2 = _has_prev_data s /\
  messages out.2 = messages s.
Proof.
  intros Hr out. subst out. rewrite (run_update_pagination _ _ _ _ _ _ Hr).
  simpl. split; [|split; [|done]].
  - intros r Hne. by rewrite lookup_insert_ne.
  - apply dom_insert_lookup_L. by rewrite Hr.
Qed.

Lemma update_pagination_frame_witness :
  heap (heap_with fetched_edc) !! 1%positive = Some fetched_edc /\
  dom (heap (run (update_pagination 1%positive 2 None "desc")
                 (heap_with fetched_edc)).2) =
    dom (heap (heap_with fetched_edc)).
Proof.
  split; [reflexivity|].
  exact (proj1 (proj2 (update_pagination_frame (heap_with fetched_edc)
                         1%positive fetched_edc 2 None "desc" eq_refl))).
Defined.

(** Outside the ascending-with-marker case the flags read as one expects:
    [has_more] tells whether an overshoot record was fetched, and
    [has_prev] whether a marker was given. *)
Theorem update_pagination_forward_flags s entities fetched page_size marker
    sort_dir :
  heap s !! entities = Some fetched ->
  (0 <= page_size)%Z ->
  sort_dir <> "asc" \/ marker = None ->
  returns_page (run (update_pagination entities page_size marker sort_dir) s)
    (fun _ has_more has_prev =>
       has_more = (Z.of_nat (length fetched) >? page_size)%Z /\
       has_prev = is_not_None marker).
Proof.
  intros Hr Hps Hfwd.
  apply (update_pagination_returns _ _ _ _ _ _ _ Hr); [by left|].
  simpl.
  assert ((sort_dir =? "asc") && is_not_None marker = false) as ->.
  { destruct Hfwd as [Hne| ->]; [|by rewrite andb_false_r].
    by apply String.eqb_neq in Hne as ->. }
  rewrite orb_false_r. split; [done|].
  destruct (_ >? _)%Z; [done|].
  destruct Hfwd as [Hne| ->]; [|by rewrite andb_false_r].
  by apply String.eqb_neq in Hne as ->.
Qed.

Lemma update_pagination_forward_flags_witness :
  heap (heap_with fetched_edc) !! 1%positive = Some fetched_edc /\
  (0 <= 2)%Z /\
  ("desc" <> "asc" \/ Some "f" = @None string) /\
  returns_page
    (run (update_pagination 1%positive 2 (Some "f") "desc")
         (heap_with fetched_edc))
    (fun _ has_more has_prev =>
       has_more = (Z.of_nat (length fetched_edc) >? 2)%Z /\
       has_prev = is_not_None (Some "f")).
Proof.
  assert ("desc" <> "asc" \/ Some "f" = @None string) as Hfwd
    by (left; discriminate).
  split; [reflexivity|]. split; [lia|]. split; [exact Hfwd|].
  exact (update_pagination_forward_flags (heap_with fetched_edc) 1%positive
           fetched_edc 2 (Some "f") "desc" eq_refl ltac:(lia) Hfwd).
Defined.

(** In the ascending direction with a marker the flags swap roles:
    [has_more] is always reported, and [has_prev] tells whether an
    overshoot record was fetched. *)
Theorem update_pagination_backward_flags s entities fetched page_size m :
  heap s !! entities = Some fetched ->
  (0 <= page_size)%Z ->
  returns_page (run (update_pagination entities page_size (Some m) "asc") s)
    (fun _ has_more has_prev =>
       has_more = true /\
       has_prev = (Z.of_nat (length fetched) >? page_size)%Z).
Proof.
  intros Hr Hps.
  apply (update_pagination_returns _ _ _ _ _ _ _ Hr); [by left|].
  simpl. rewrite orb_true_r. by destruct (_ >? _)%Z.
Qed.

Lemma update_pagination_backward_flags_witness :
  heap (heap_with fetched_edc) !! 1%positive = Some fetched_edc /\
  (0 <= 2)%Z /\
  returns_page
    (run (update_pagination 1%positive 2 (Some "b") "asc")
         (heap_with fetched_edc))
    (fun _ has_more has_prev =>
       has_more = true /\
       has_prev = (Z.of_nat (length fetched_edc) >? 2)%Z).
Proof.
  split; [reflexivity|]. split; [lia|].
  exact (update_pagination_backward_flags (heap_with fetched_edc) 1%positive
           fetched_edc 2 "b" eq_refl ltac:(lia)).
Defined.

(** [update_pagination] is not idempotent on a list object.  After a call
    that trimmed a fetch of [page_size + 1] records, a second call on the
    same list returns the same items but no longer sees the overshoot: it
    reports [has_more] only in the ascending direction with a marker. *)
Theorem update_pagination_twice s entities fetched page_size marker sort_dir :
  heap s !! entities = Some fetched ->
  (0 <= page_size)%Z ->
  Z.of_nat (length fetched) = (page_size + 1)%Z ->
  let first := run (update_pagination entities page_size marker sort_dir) s in
  let second :=
    run (update_pagination entities page_size marker sort_dir) first.2 in
  returns_page first (fun items has_more _ =>
    has_more = true /\
    returns_page second (fun items' has_more' _ =>
      items' = items /\
      has_more' = (sort_dir =? "asc") && is_not_None marker)).
Proof.
  intros Hr Hps Hlen first second. subst second first.
  assert (fetched <> []) as Hne by (intros ->; simpl in Hlen; lia).
  assert (paginated fetched page_size marker sort_dir =
          (Ok (true, is_not_None marker), removelast fetched)) as Hpag.
  { unfold paginated.
    replace (Z.of_nat (length fetched) >? page_size)%Z with true by lia.
    by destruct (overshoot_has_last fetched page_size) as (x & -> & Hx);
      [lia|by left|]. }
  rewrite (run_update_pagination _ _ _ _ _ _ Hr), Hpag.
  cbn [fst snd with_ref].
  set (s1 := set_heap _ s).
  assert (heap s1 !! entities = Some (removelast fetched)) as Hr1
    by apply lookup_insert_eq.
  exists (removelast fetched), true, (is_not_None marker).
  split; [simpl; by rewrite lookup_insert_eq|]. split; [done|].
  apply (update_pagination_returns _ _ _ _ _ _ _ Hr1); [by left|].
  simpl. rewrite length_removelast_Z by done.
  by replace (Z.of_nat (length fetched) - 1 >? page_size)%Z with false by lia.
Qed.

Lemma update_pagination_twice_witness :
  heap (heap_with fetched_edc) !! 1%positive = Some fetched_edc /\
  (0 <= 2)%Z /\
  Z.of_nat (length fetched_edc) = (2 + 1)%Z /\
  returns_page
    (run (update_pagination 1%positive 2 None "desc") (heap_with fetched_edc))
    (fun items has_more _ =>
       has_more = true /\
       returns_page
         (run (update_pagination 1%positive 2 None "desc")
              (run (update_pagination 1%positive 2 None "desc")
                   (heap_with fetched_edc)).2)
         (fun items' has_more' _ =>
            items' = items /\
            has_more' = ("desc" =? "asc") && is_not_None (@None string))).
Proof.
  split; [reflexivity|]. split; [lia|]. split; [reflexivity|].
  exact (update_pagination_twice (heap_with fetched_edc) 1%positive
           fetched_edc 2 None "desc" eq_refl ltac:(lia) eq_refl).
Defined.

(** ** The listings of api/api.py *)

Lemma volume_replication_list_paged_shape request search_opts marker paginate
    sort_dir :
  volume_replication_list_paged request search_opts marker paginate sort_dir =
  list_paged replications_list (fun x => x) request search_opts marker
    paginate sort_dir.
Proof. reflexivity. Qed.

Lemma volume_list_paged_shape api request search_opts marker paginate
    sort_dir :
  volume_list_paged api request search_opts marker paginate sort_dir =
  list_paged (volumes_list api) (fun x => x) request search_opts marker
    paginate sort_dir.
Proof. reflexivity. Qed.

Lemma volume_snapshot_list_paged_shape api request search_opts marker paginate
    sort_dir :
  volume_snapshot_list_paged api request search_opts marker paginate sort_dir =
  list_paged (snapshots_list api) (fun x => x) request search_opts marker
    paginate sort_dir.
Proof. reflexivity. Qed.

(** A listing that is not paginated returns what the endpoint answers to
    the bare query, in a list of its own. *)
Lemma run_list_paged_all endpoint wrap request c_client search_opts marker
    sort_dir xs s :
  service request = Ok c_client ->
  endpoint c_client (ListQuery search_opts None None None) = Ok xs ->
  run (list_paged endpoint wrap request search_opts marker false sort_dir) s =
    (Ok (fresh (dom (heap s)), false, false),
     set_heap (<[fresh (dom (heap s)) := xs]> (heap s)) s).
Proof.
  intros Hservice Hlist.
  pose proof (run_list_paged endpoint wrap request search_opts marker false
                sort_dir s) as Hrun.
  cbv zeta in Hrun. rewrite Hrun. unfold fetched_page.
  by rewrite Hservice, Hlist.
Qed.

Lemma run_list_paged_no_service endpoint wrap request search_opts marker
    paginate sort_dir e s :
  service request = Raise e ->
  run (list_paged endpoint wrap request search_opts marker paginate sort_dir) s
    = (Raise e, set_heap (<[fresh (dom (heap s)) := []]> (heap s)) s).
Proof.
  intros Hservice.
  pose proof (run_list_paged endpoint wrap request search_opts marker paginate
                sort_dir s) as Hrun.
  cbv zeta in Hrun. rewrite Hrun. unfold fetched_page.
  by rewrite Hservice.
Qed.

Lemma run_list_paged_page endpoint wrap request c_client search_opts marker
    sort_dir xs s :
  service request = Ok c_client ->
  endpoint c_client
    (ListQuery search_opts (Some (get_page_size request + 1)%Z) marker
       (Some ("created_at:" +:+ sort_dir))) = Ok xs ->
  let result := paginated (map wrap xs) (get_page_size request) marker
                          sort_dir in
  run (list_paged endpoint wrap request search_opts marker true sort_dir) s =
    (with_ref (fresh (dom (heap s))) result.1,
     set_heap (<[fresh (dom (heap s)) := result.2]> (heap s)) s).
Proof.
  intros Hservice Hlist.
  pose proof (run_list_paged endpoint wrap request search_opts marker true
                sort_dir s) as Hrun.
  cbv zeta in Hrun. cbv zeta. rewrite Hrun. unfold fetched_page.
  by rewrite Hservice, Hlist.
Qed.

Lemma list_paged_frame endpoint wrap request search_opts marker paginate
    sort_dir s :
  let out :=
    run (list_paged endpoint wrap request search_opts marker paginate
           sort_dir) s in
  (forall r l, heap s !! r = Some l -> heap out.2 !! r = Some l) /\
  _has_more_data out.2 = _has_more_data s /\
  _has_prev_data out.2 = _has_prev_data s /\
  messages out.2 = messages s /\
  (forall r has_more has_prev,
     out.1 = Ok (r, has_more, has_prev) ->
     heap s !! r = None /\ is_Some (heap out.2 !! r)).
Proof.
  pose proof (run_list_paged endpoint wrap request search_opts marker paginate
                sort_dir s) as Hrun.
  cbv zeta in Hrun. cbv zeta. rewrite Hrun. clear Hrun. simpl.
  split; [|split; [done|split; [done|split; [done|]]]].
  - intros r l Hr. by apply lookup_fresh_insert.
  - intros r more prev Hout.
    destruct (fetched_page _ _ _ _ _ _ _).1 as [[more' prev']|e];
      simpl in Hout; [|done].
    injection Hout as <- _ _. split.
    + apply not_elem_of_dom, is_fresh.
    + rewrite lookup_insert_eq. eauto.
Qed.

(** [volume_list] without pagination ignores [marker] and [sort_dir]: it
    asks the endpoint for everything, with no limit, marker or sort, and
    returns the answer unchanged in a new list. *)
Theorem volume_list_returns_all api request c_client search_opts marker
    sort_dir vs s :
  service request = Ok c_client ->
  volumes_list api c_client (ListQuery search_opts None None None) = Ok vs ->
  run (volume_list api request search_opts marker sort_dir) s =
    (Ok (fresh (dom (heap s))),
     set_heap (<[fresh (dom (heap s)) := vs]> (heap s)) s).
Proof.
  intros Hservice Hlist. unfold volume_list.
  rewrite run_bind, volume_list_paged_shape.
  by rewrite (run_list_paged_all _ _ _ c_client _ _ _ vs s Hservice Hlist).
Qed.

Lemma volume_list_returns_all_witness :
  service sample_request = Ok sample_client /\
  volumes_list sample_endpoints sample_client (ListQuery None None None None) =
    Ok [record "v1"; record "v2"] /\
  run (volume_list sample_endpoints sample_request None (Some "v9") "asc")
      empty_state =
    (Ok (fresh (dom (heap empty_state))),
     set_heap (<[fresh (dom (heap empty_state)) := [record "v1"; record "v2"]]>
                 (heap empty_state)) empty_state).
Proof.
  split; [reflexivity|]. split; [reflexivity|].
  exact (volume_list_returns_all sample_endpoints sample_request sample_client
           None (Some "v9") "asc" [record "v1"; record "v2"] empty_state
           eq_refl eq_refl).
Defined.

(** Backups come back in two forms.  The unpaginated listing returns the
    records as the endpoint delivers them, with both flags false; the
    paginated listing returns [VolumeBackup] wrappers of the delivered
    records, in order. *)
Theorem volume_backup_wrapping request c_client marker sort_dir bs s :
  service request = Ok c_client ->
  (backups_list c_client (ListQuery None None None None) = Ok bs ->
   returns_page (run (volume_backup_list_paged request marker false sort_dir) s)
     (fun items has_more has_prev =>
        items = bs /\ has_more = false /\ has_prev = false)) /\
  ((0 <= get_page_size request)%Z ->
   backups_list c_client
     (ListQuery None (Some (get_page_size request + 1)%Z) marker
        (Some ("created_at:" +:+ sort_dir))) = Ok bs ->
   returns_page (run (volume_backup_list_paged request marker true sort_dir) s)
     (fun items _ _ => items `prefix_of` map VolumeBackup bs)).
Proof.
  intros Hservice. rewrite !volume_backup_list_paged_shape. split.
  - intros Hlist.
    rewrite (run_list_paged_all _ _ _ c_client _ _ _ bs s Hservice Hlist).
    unfold returns_page, page. simpl. rewrite lookup_insert_eq. simpl.
    eauto 10.
  - intros Hps Hlist.
    rewrite (run_list_paged_page _ _ _ c_client _ _ _ bs s Hservice Hlist).
    unfold returns_page, page, paginated.
    destruct (_ >? _)%Z eqn:Hgt.
    + destruct (overshoot_has_last _ _ Hgt) as (x & -> & Hx); [by left|].
      simpl. rewrite lookup_insert_eq. simpl.
      do 3 eexists. split; [done|]. by exists [x].
    + simpl. rewrite lookup_insert_eq. simpl. eauto 10.
Qed.

Lemma volume_backup_wrapping_witness :
  service first_page_request = Ok (Client (backend_list five_records)
                                          (backend_list five_records)
                                          (backend_list [])) /\
  backups_list (Client (backend_list five_records) (backend_list five_records)
                       (backend_list []))
    (ListQuery None None None None) = Ok five_records /\
  returns_page
    (run (volume_backup_list_paged first_page_request None false "desc")
         empty_state)
    (fun items has_more has_prev =>
       items = five_records /\ has_more = false /\ has_prev = false).
Proof.
  split; [reflexivity|]. split; [reflexivity|].
  exact (proj1 (volume_backup_wrapping first_page_request _ None "desc"
                  five_records empty_state eq_refl) eq_refl).
Defined.

(** When the service endpoint cannot be found, every listing raises the
    exception of the lookup, paginated or not, having only created its
    empty list; no remote list call is involved. *)
Theorem listings_without_service api request search_opts marker paginate
    sort_dir e s :
  service request = Raise e ->
  let failed :=
    (Raise e, set_heap (<[fresh (dom (heap s)) := []]> (heap s)) s) in
  run (volume_backup_list_paged request marker paginate sort_dir) s = failed /\
  run (volume_list_paged api request search_opts marker paginate sort_dir) s
    = failed /\
  run (volume_snapshot_list_paged api request search_opts marker paginate
         sort_dir) s = failed /\
  run (volume_checkpoint_list_paged request search_opts marker paginate
         sort_dir) s = failed /\
  run (volume_replication_list_paged request search_opts marker paginate
         sort_dir) s = failed.
Proof.
  intros Hservice failed. subst failed.
  rewrite volume_backup_list_paged_shape, volume_list_paged_shape,
    volume_snapshot_list_paged_shape, volume_checkpoint_list_paged_shape,
    volume_replication_list_paged_shape.
  by rewrite !(run_list_paged_no_service _ _ _ _ _ _ _ e s Hservice).
Qed.

Lemma listings_without_service_witness :
  service no_service_request = Raise (Remote "no sg-service endpoint") /\
  run (volume_checkpoint_list_paged no_service_request None None true "desc")
      empty_state =
    (Raise (Remote "no sg-service endpoint"),
     set_heap (<[fresh (dom (heap empty_state)) := []]> (heap empty_state))
              empty_state).
Proof.
  split; [reflexivity|].
  exact (proj1 (proj2 (proj2 (proj2
           (listings_without_service sample_endpoints no_service_request None
              None true "desc" (Remote "no sg-service endpoint") empty_state
              eq_refl))))).
Defined.

(** Against an endpoint that honours the limit it is given, a paginated
    snapshot listing returns at most [page_size] items, and they are the
    first of the records delivered. *)
Theorem volume_snapshot_page_bounded api request c_client search_opts marker
    sort_dir ss s :
  service request = Ok c_client ->
  (0 <= get_page_size request)%Z ->
  snapshots_list api c_client
    (ListQuery search_opts (Some (get_page_size request + 1)%Z) marker
       (Some ("created_at:" +:+ sort_dir))) = Ok ss ->
  (Z.of_nat (length ss) <= get_page_size request + 1)%Z ->
  returns_page
    (run (volume_snapshot_list_paged api request search_opts marker true
            sort_dir) s)
    (fun items _ _ =>
       (Z.of_nat (length items) <= get_page_size request)%Z /\
       items = take (Z.to_nat (get_page_size request)) ss).
Proof.
  intros Hservice Hps Hlist Hlimit. rewrite volume_snapshot_list_paged_shape.
  rewrite (run_list_paged_page _ _ _ c_client _ _ _ ss s Hservice Hlist).
  rewrite map_id. unfold returns_page, page, paginated.
  destruct (_ >? _)%Z eqn:Hgt.
  - destruct (overshoot_has_last _ _ Hgt) as (x & -> & Hx); [by left|].
    simpl. rewrite lookup_insert_eq. simpl.
    do 3 eexists. split; [done|].
    assert (ss <> []) as Hne by (intros ->; simpl in Hgt; lia).
    pose proof (length_removelast_Z ss Hne) as Hlen.
    split; [lia|].
    rewrite Hx at 2. rewrite take_app_length'; [done|lia].
  - simpl. rewrite lookup_insert_eq. simpl.
    do 3 eexists. split; [done|]. split; [lia|].
    rewrite take_ge; [done|lia].
Qed.

Lemma volume_snapshot_page_bounded_witness :
  service sample_request = Ok sample_client /\
  (0 <= get_page_size sample_request)%Z /\
  snapshots_list snapshot_endpoints sample_client
    (ListQuery None (Some (2 + 1)%Z) (Some "e") (Some "created_at:desc")) =
    Ok [record "d"; record "c"; record "b"] /\
  (Z.of_nat (length [record "d"; record "c"; record "b"]) <= 2 + 1)%Z /\
  returns_page
    (run (volume_snapshot_list_paged snapshot_endpoints sample_request None
            (Some "e") true "desc") empty_state)
    (fun items _ _ =>
       (Z.of_nat (length items) <= 2)%Z /\
       items = take (Z.to_nat 2) [record "d"; record "c"; record "b"]).
Proof.
  split; [reflexivity|]. split; [simpl; lia|]. split; [reflexivity|].
  split; [simpl; lia|].
  exact (volume_snapshot_page_bounded snapshot_endpoints sample_request
           sample_client None (Some "e") "desc"
           [record "d"; record "c"; record "b"] empty_state eq_refl
           ltac:(simpl; lia) eq_refl ltac:(simpl; lia)).
Defined.

(** The page above, computed: the second page of two snapshots out of
    five, trimmed of its overshoot record. *)
Example volume_snapshot_page_sample :
  page (run (volume_snapshot_list_paged snapshot_endpoints sample_request None
               (Some "e") true "desc") empty_state) =
    Some ([record "d"; record "c"], true, true).
Proof. vm_compute. reflexivity. Qed.

(** A listing never disturbs what is already there: existing lists, the
    view's flags and the queued messages are left alone whatever the
    outcome, and the list it returns did not exist before the call. *)
Theorem volume_checkpoint_list_paged_frame request search_opts marker paginate
    sort_dir s :
  let out :=
    run (volume_checkpoint_list_paged request search_opts marker paginate
           sort_dir) s in
  (forall r l, heap s !! r = Some l -> heap out.2 !! r = Some l) /\
  _has_more_data out.2 = _has_more_data s /\
  _has_prev_data out.2 = _has_prev_data s /\
  messages out.2 = messages s /\
  (forall r has_more has_prev,
     out.1 = Ok (r, has_more, has_prev) ->
     heap s !! r = None /\ is_Some (heap out.2 !! r)).
Proof.
  rewrite volume_checkpoint_list_paged_shape. apply list_paged_frame.
Qed.

(** ** [PagedTableMixin._get_marker]: what it can return, how it fails *)

Lemma truthy_Some_nonempty (x : option string) :
  truthy x = true -> exists v, x = Some v /\ v <> "".
Proof.
  destruct x as [v|]; [|done]. simpl.
  destruct (String.eqb_spec v ""); [done|eauto].
Qed.

(** Whatever [_get_marker] returns is usable as it stands: the direction is
    ["asc"] or ["desc"], a marker is never the empty string, the ascending
    direction always comes with a marker, and the state is untouched. *)
Theorem get_marker_invariants self s marker sort_dir s' :
  run (_get_marker self) s = (Ok (marker, sort_dir), s') ->
  s' = s /\
  marker <> Some "" /\
  ((sort_dir = "asc" /\ exists p, marker = Some p) \/
   sort_dir = "desc").
Proof.
  intros Hrun.
  assert (exists m, has_meta self m) as [m Hm].
  { destruct (table_class self) as [m|] eqn:Hclass; [by exists m; left|].
    destruct (table_classes self) as [[|m rest]|] eqn:Hclasses;
      [|exists m; right; eauto|];
      exfalso; revert Hrun;
      unfold run, _get_marker, mbind, M_bind, try_except, table_class_meta,
        table_classes_0_meta;
      by rewrite Hclass, Hclasses. }
  rewrite (run_get_marker_meta self m s Hm) in Hrun. cbv zeta in Hrun.
  destruct (truthy (GET _ !! prev_pagination_param m)) eqn:Hprev.
  - apply truthy_Some_nonempty in Hprev as (p & Hp & Hne).
    injection Hrun as <- <- <-. rewrite Hp. split; [done|].
    split; [congruence|]. left. eauto.
  - destruct (truthy (GET _ !! pagination_param m)) eqn:Hnext.
    + apply truthy_Some_nonempty in Hnext as (n & Hn & Hne).
      injection Hrun as <- <- <-. rewrite Hn. split; [done|].
      split; [congruence|]. by right.
    + injection Hrun as <- <- <-. split; [done|]. split; [done|]. by right.
Qed.

Lemma get_marker_invariants_witness :
  run (_get_marker (CheckpointsView (backend_request [] 20 prev_query)))
      empty_state = (Ok (Some "d", "asc"), empty_state) /\
  Some "d" <> Some "" /\
  (("asc" = "asc" /\ exists p, Some "d" = Some p) \/ "asc" = "desc").
Proof.
  split; [reflexivity|].
  exact (proj2 (get_marker_invariants
                  (CheckpointsView (backend_request [] 20 prev_query))
                  empty_state (Some "d") "asc" empty_state eq_refl)).
Defined.

Lemma returns_some_pair {X Y} (x : X * Y) (s : state) :
  exists a b, (Ok x, s) = (Ok (a, b), s).
Proof. destruct x. eauto. Qed.

(** [_get_marker] fails only for want of a table: with neither
    [table_class] nor [table_classes] it raises [AttributeError], with no
    [table_class] and an empty [table_classes] it raises [IndexError]; in
    every other case it returns.  A [table_class] makes [table_classes]
    irrelevant. *)
Theorem get_marker_failures self s :
  let out := run (_get_marker self) s in
  match table_class self, table_classes self with
  | None, None => out = (Raise AttributeError, s)
  | None, Some [] => out = (Raise IndexError, s)
  | Some m, _ | None, Some (m :: _) =>
      has_meta self m /\ exists marker sort_dir, out = (Ok (marker, sort_dir), s)
  end.
Proof.
  intros out. subst out.
  destruct (table_class self) as [m|] eqn:Hclass.
  - assert (has_meta self m) as Hm by (by left).
    split; [done|]. rewrite (run_get_marker_meta self m s Hm).
    apply returns_some_pair.
  - destruct (table_classes self) as [[|m rest]|] eqn:Hclasses.
    + unfold run, _get_marker, mbind, M_bind, try_except, table_class_meta,
        table_classes_0_meta. by rewrite Hclass, Hclasses.
    + assert (has_meta self m) as Hm by (right; eauto).
      split; [done|]. rewrite (run_get_marker_meta self m s Hm).
    apply returns_some_pair.
    + unfold run, _get_marker, mbind, M_bind, try_except, table_class_meta,
        table_classes_0_meta. by rewrite Hclass, Hclasses.
Qed.

(** ** The views: rows and what is attached to them *)

(** Brings the states of a goal to explicit records. *)
Ltac norm_state :=
  unfold set_heap;
  cbn [heap _has_more_data _has_prev_data messages checkpoints replications
       rv_replications rv_volumes].

Lemma run_getattr x name v s :
  assoc name (fields_of x) = Some v -> run (getattr x name) s = (Ok v, s).
Proof. intros Hv. unfold getattr. by rewrite Hv. Qed.

Lemma run_store_item r i x l s :
  heap s !! r = Some l ->
  run (store_item r i x) s =
    (Ok tt, set_heap (<[r := <[i := x]> l]> (heap s)) s).
Proof. intros Hr. unfold run, store_item. by rewrite Hr. Qed.

Lemma run_set_flags more prev s :
  run (set_flags more prev) s = (Ok tt, State (heap s) more prev (messages s)).
Proof. reflexivity. Qed.

Lemma insert_middle (pre post : list obj) c x :
  <[length pre := x]> (pre ++ c :: post) = pre ++ x :: post.
Proof. induction pre as [|y pre IH]; simpl; [done|]. by rewrite IH. Qed.

Lemma run_dict_by_id vs d s :
  Forall (has_field "id") vs ->
  run (dict_by_id vs d) s = (Ok (index_by_id vs d), s).
Proof.
  intros Hvs. revert d. induction Hvs as [|v vs [k Hk] _ IH]; intros d.
  - reflexivity.
  - simpl. rewrite run_bind, (run_getattr v "id" k) by done.
    rewrite IH. by rewrite Hk.
Qed.

(** A loop that rewrites the rows of a list one after the other. *)
Lemma run_for_each_rows (r : loc) (body : nat * obj -> M unit)
    (f : obj -> obj) cs :
  (forall s pre c post,
     c ∈ cs -> heap s !! r = Some (pre ++ c :: post) ->
     run (body (length pre, c)) s =
       (Ok tt, set_heap (<[r := pre ++ f c :: post]> (heap s)) s)) ->
  forall s pre,
    heap s !! r = Some (pre ++ cs) ->
    run (for_each (imap (fun i c => (length pre + i, c)) cs) body) s =
      (Ok tt, set_heap (<[r := pre ++ map f cs]> (heap s)) s).
Proof.
  induction cs as [|c cs IH]; intros Hbody s pre Hr.
  - simpl. rewrite app_nil_r in *. by rewrite insert_id, set_heap_id.
  - rewrite imap_cons. cbn [for_each]. rewrite run_bind.
    replace (length pre + 0) with (length pre) by lia.
    rewrite (Hbody s pre c cs) by (done || left).
    cbv beta iota.
    rewrite (imap_ext _ (fun i x => (length (pre ++ [f c]) + i, x)));
      [|intros i x _; simpl; rewrite length_app; simpl; f_equal; lia].
    rewrite (IH (fun s pre c' post Hin => Hbody s pre c' post
                   (list_elem_of_further _ _ _ Hin))).
    + simpl. by rewrite insert_insert_eq, <- app_assoc.
    + simpl. by rewrite lookup_insert_eq, <- app_assoc.
Qed.

Lemma page_list_paged endpoint wrap request search_opts marker paginate
    sort_dir s :
  page (run (list_paged endpoint wrap request search_opts marker paginate
               sort_dir) s) =
    match fetched_page endpoint wrap request search_opts marker paginate
            sort_dir with
    | (Ok (more, prev), l) => Some (l, more, prev)
    | (Raise _, _) => None
    end.
Proof.
  pose proof (run_list_paged endpoint wrap request search_opts marker paginate
                sort_dir s) as Hrun.
  cbv zeta in Hrun. rewrite Hrun.
  destruct (fetched_page _ _ _ _ _ _ _) as [[[more prev]|e] l]; simpl; [|done].
  by rewrite lookup_insert_eq.
Qed.

(** A fetch that returns a page in one state returns it in every state. *)
Lemma run_list_paged_of_page endpoint wrap request search_opts marker paginate
    sort_dir s items more prev s1 :
  page (run (list_paged endpoint wrap request search_opts marker paginate
               sort_dir) s) = Some (items, more, prev) ->
  run (list_paged endpoint wrap request search_opts marker paginate sort_dir)
      s1 =
    (Ok (fresh (dom (heap s1)), more, prev),
     set_heap (<[fresh (dom (heap s1)) := items]> (heap s1)) s1).
Proof.
  rewrite page_list_paged. intros Hpage.
  pose proof (run_list_paged endpoint wrap request search_opts marker paginate
                sort_dir s1) as Hrun.
  cbv zeta in Hrun. rewrite Hrun.
  destruct (fetched_page _ _ _ _ _ _ _) as [[[more' prev']|e] l]; [|done].
  by injection Hpage as -> -> ->.
Qed.

Lemma index_by_id_sound vs k :
  match index_by_id vs ∅ !! k with
  | Some v => v ∈ vs /\ assoc "id" (fields_of v) = Some k
  | None => forall v, v ∈ vs -> assoc "id" (fields_of v) <> Some k
  end.
Proof.
  assert (forall d,
    match d !! k with
    | Some v => assoc "id" (fields_of v) = Some k
    | None => True
    end ->
    match index_by_id vs d !! k with
    | Some v => (v ∈ vs \/ d !! k = Some v) /\ assoc "id" (fields_of v) = Some k
    | None => d !! k = None /\
              forall v, v ∈ vs -> assoc "id" (fields_of v) <> Some k
    end) as Hgen.
  { induction vs as [|v vs IH]; intros d Hd; simpl.
    - destruct (d !! k) as [w|]; [eauto|]. split; [done|].
      intros v Hv. by apply elem_of_nil in Hv.
    - destruct (assoc "id" (fields_of v)) as [kv|] eqn:Hkv.
      + specialize (IH (<[kv := v]> d)).
        destruct (decide (kv = k)) as [->|Hne].
        * rewrite lookup_insert_eq in IH. specialize (IH Hkv).
          destruct (index_by_id vs _ !! k) as [w|].
          -- destruct IH as [[Hin|[= <-]] Hw]; (split; [|done]); left;
               [by right|by left].
          -- by destruct IH as [? _].
        * rewrite lookup_insert_ne in IH by done. specialize (IH Hd).
          destruct (index_by_id vs _ !! k) as [w|].
          -- destruct IH as [[Hin|Hw'] Hw]; (split; [|done]);
               [left; by right|by right].
          -- destruct IH as [Hnone Hall]. split; [done|].
             intros v' [->|Hin]%elem_of_cons; [congruence|by apply Hall].
      + specialize (IH d Hd).
        destruct (index_by_id vs d !! k) as [w|].
        * destruct IH as [[Hin|Hw'] Hw]; (split; [|done]);
            [left; by right|by right].
        * destruct IH as [Hnone Hall]. split; [done|].
          intros v' [->|Hin]%elem_of_cons; [congruence|by apply Hall]. }
  specialize (Hgen ∅). rewrite lookup_empty in Hgen. specialize (Hgen I).
  destruct (index_by_id vs ∅ !! k) as [v|].
  - by destruct Hgen as [[Hin|?] Hv].
  - by destruct Hgen as [_ Hall].
Qed.

Lemma run_try_block_nil {L} handler (locals : L) s :
  run (try_block [] handler locals) s = (Ok locals, s).
Proof. reflexivity. Qed.

Lemma run_volume_replication_list request c_client search_opts reps s :
  service request = Ok c_client ->
  replications_list c_client (ListQuery search_opts None None None) = Ok reps ->
  run (volume_replication_list request search_opts) s =
    (Ok (fresh (dom (heap s))),
     set_heap (<[fresh (dom (heap s)) := reps]> (heap s)) s).
Proof.
  intros Hservice Hlist. unfold volume_replication_list.
  rewrite run_bind, volume_replication_list_paged_shape.
  by rewrite (run_list_paged_all _ _ _ c_client _ _ _ reps s Hservice Hlist).
Qed.

Lemma run_volume_replication_list_raises request c_client search_opts e s :
  service request = Ok c_client ->
  replications_list c_client (ListQuery search_opts None None None) = Raise e ->
  run (volume_replication_list request search_opts) s =
    (Raise e, set_heap (<[fresh (dom (heap s)) := []]> (heap s)) s).
Proof.
  intros Hservice Hlist. unfold volume_replication_list.
  rewrite run_bind, volume_replication_list_paged_shape.
  pose proof (run_list_paged replications_list (fun x => x) request search_opts
                None false "desc" s) as Hrun.
  cbv zeta in Hrun. rewrite Hrun. unfold fetched_page.
  by rewrite Hservice, Hlist.
Qed.

(** The body of the loop of [CheckpointsView.get_data] on one row. *)
Lemma run_checkpoint_row r d s pre c post :
  has_field "replication_id" c ->
  heap s !! r = Some (pre ++ c :: post) ->
  run (replication_id ← getattr c "replication_id";
       rep ← dict_get (PyDict d) replication_id;
       store_item r (length pre) (setattr c "_replication" rep)) s =
    (Ok tt, set_heap (<[r := pre ++ with_replication d c :: post]> (heap s)) s).
Proof.
  intros [rid Hrid] Hr.
  rewrite run_bind, (run_getattr c "replication_id" rid) by done.
  cbv beta iota. rewrite run_bind. unfold dict_get. rewrite run_ret.
  cbv beta iota. rewrite (run_store_item _ _ _ _ _ Hr), insert_middle.
  unfold with_replication. by rewrite Hrid.
Qed.

(** [CheckpointsView.get_data] when both listings succeed. *)
Lemma run_get_data_rows self c_client marker sort_dir items more prev reps s :
  let request := view_request self in
  service request = Ok c_client ->
  resolved_marker self = Ok (marker, sort_dir) ->
  page (run (volume_checkpoint_list_paged request None marker true sort_dir) s)
    = Some (items, more, prev) ->
  replications_list c_client (ListQuery None None None None) = Ok reps ->
  Forall (has_field "id") reps ->
  Forall (has_field "replication_id") items ->
  table_page (run (PagedTableMixin_init ;; get_data self) s) =
    Some (map (with_replication (index_by_id reps ∅)) items, more, prev) /\
  messages (run (PagedTableMixin_init ;; get_data self) s).2 = messages s.
Proof.
  intros request Hservice Hmarker Hpage Hreps Hids Hrids.
  rewrite volume_checkpoint_list_paged_shape in Hpage.
  rewrite run_bind, run_PagedTableMixin_init. cbv beta iota.
  unfold get_data. rewrite run_bind, run_new_list. cbv beta iota. norm_state.
  set (r0 := fresh (dom (heap s))). set (h0 := <[r0 := []]> (heap s)).
  rewrite run_bind, run_try_block_cons, run_bind, run_get_marker, Hmarker.
  cbv beta iota. rewrite run_bind. fold request.
  rewrite volume_checkpoint_list_paged_shape.
  rewrite (run_list_paged_of_page _ _ _ _ _ _ _ s items more prev _ Hpage).
  cbv beta iota. rewrite run_bind, run_set_flags, run_ret. cbv beta iota.
  norm_state.
  set (r1 := fresh (dom h0)). set (h1 := <[r1 := items]> h0).
  rewrite run_try_block_cons, run_bind.
  rewrite (run_volume_replication_list request c_client None reps _
             Hservice Hreps).
  cbv beta iota. rewrite run_ret. cbv beta iota. norm_state.
  set (r2 := fresh (dom h1)). set (h2 := <[r2 := reps]> h1).
  assert (h2 !! r2 = Some reps) as Hr2 by apply lookup_insert_eq.
  assert (h2 !! r1 = Some items) as Hr1
    by apply lookup_fresh_insert, lookup_insert_eq.
  rewrite run_try_block_cons. norm_state.
  rewrite run_bind, (run_contents r2 reps) by done.
  cbv beta iota. rewrite run_bind, (run_dict_by_id reps ∅ _ Hids).
  cbv beta iota. rewrite run_ret, run_try_block_nil. cbv beta iota.
  norm_state.
  rewrite run_bind, (run_contents r1 items) by done.
  cbv beta iota. rewrite run_bind.
  change (imap (fun i c => (i, c)) items)
    with (imap (fun i c => (length (@nil obj) + i, c)) items).
  rewrite (run_for_each_rows r1 _ (with_replication (index_by_id reps ∅)) items
             (fun s pre c post Hin Hr =>
                run_checkpoint_row r1 (index_by_id reps ∅) s pre c post
                  (proj1 (Forall_forall _ _) Hrids c Hin) Hr) _ [])
    by done.
  cbv beta iota. rewrite run_ret.
  unfold table_page. norm_state. cbn [fst snd].
  by rewrite lookup_insert_eq.
Qed.

Lemma index_by_id_found vs k : found_by_id vs k (index_by_id vs ∅ !! k).
Proof.
  pose proof (index_by_id_sound vs k) as Hk. unfold found_by_id.
  by destruct (index_by_id vs ∅ !! k).
Qed.

(** When both listings succeed, [CheckpointsView.get_data] returns the page
    of checkpoints row for row, stores the flags of the page in the view,
    and attaches to each checkpoint as [_replication] the listed
    replication that its [replication_id] names, or [None] when no listed
    replication has that id. *)
Theorem checkpoints_get_data_rows self c_client marker sort_dir items more
    prev reps s :
  let request := view_request self in
  service request = Ok c_client ->
  resolved_marker self = Ok (marker, sort_dir) ->
  page (run (volume_checkpoint_list_paged request None marker true sort_dir) s)
    = Some (items, more, prev) ->
  replications_list c_client (ListQuery None None None None) = Ok reps ->
  Forall (has_field "id") reps ->
  Forall (has_field "replication_id") items ->
  exists rows,
    table_page (run (PagedTableMixin_init ;; get_data self) s) =
      Some (rows, more, prev) /\
    Forall2 (fun checkpoint row =>
               exists replication_id rep,
                 assoc "replication_id" (fields_of checkpoint) =
                   Some replication_id /\
                 row = setattr checkpoint "_replication" rep /\
                 found_by_id reps replication_id rep)
            items rows.
Proof.
  intros request Hservice Hmarker Hpage Hreps Hids Hrids.
  destruct (run_get_data_rows self c_client marker sort_dir items more prev
              reps s Hservice Hmarker Hpage Hreps Hids Hrids) as [Hrows _].
  eexists. split; [exact Hrows|].
  clear Hrows Hpage. induction Hrids as [|c items [rid Hrid] _ IH]; simpl.
  - constructor.
  - constructor; [|exact IH].
    exists rid, (index_by_id reps ∅ !! rid). split; [done|].
    split; [unfold with_replication; by rewrite Hrid|].
    apply index_by_id_found.
Qed.

Lemma checkpoints_get_data_rows_witness :
  service (view_request (CheckpointsView sample_request)) = Ok sample_client /\
  resolved_marker (CheckpointsView sample_request) = Ok (None, "desc") /\
  page (run (volume_checkpoint_list_paged sample_request None None true "desc")
            empty_state) = Some (sample_checkpoints, false, false) /\
  replications_list sample_client (ListQuery None None None None) =
    Ok sample_replications /\
  Forall (has_field "id") sample_replications /\
  Forall (has_field "replication_id") sample_checkpoints /\
  exists rows,
    table_page (run (PagedTableMixin_init ;;
                     get_data (CheckpointsView sample_request)) empty_state) =
      Some (rows, false, false) /\
    Forall2 (fun checkpoint row =>
               exists replication_id rep,
                 assoc "replication_id" (fields_of checkpoint) =
                   Some replication_id /\
                 row = setattr checkpoint "_replication" rep /\
                 found_by_id sample_replications replication_id rep)
            sample_checkpoints rows.
Proof.
  assert (Forall (has_field "id") sample_replications) as Hids
    by (repeat constructor; eexists; reflexivity).
  assert (Forall (has_field "replication_id") sample_checkpoints) as Hrids
    by (repeat constructor; eexists; reflexivity).
  split; [reflexivity|]. split; [reflexivity|]. split; [reflexivity|].
  split; [reflexivity|]. split; [exact Hids|]. split; [exact Hrids|].
  exact (checkpoints_get_data_rows (CheckpointsView sample_request)
           sample_client None "desc" sample_checkpoints false false
           sample_replications empty_state eq_refl eq_refl eq_refl eq_refl
           Hids Hrids).
Defined.

(** The rows above, computed on the sample service: the checkpoint of a
    listed replication carries it, the other one carries [None]. *)
Example checkpoints_get_data_sample :
  table_page (run (PagedTableMixin_init ;;
                   get_data (CheckpointsView sample_request)) empty_state) =
    Some ([setattr (checkpoint_of "c2" "r1") "_replication"
             (Some (replication_of "r1" "v1" "v2"));
           setattr (checkpoint_of "c1" "r9") "_replication" None],
          false, false).
Proof. vm_compute. reflexivity. Qed.

(** A failure of the second listing does not undo the first.  When the
    page of checkpoints was fetched and the listing of replications then
    raises (an exception that [exceptions.handle] reports and swallows),
    [get_data] still returns the page, with the flags stored in the view,
    every checkpoint carrying [_replication = None], and the exception
    queued with the view's message. *)
Theorem checkpoints_get_data_without_replications self c_client marker
    sort_dir items more prev e s :
  let request := view_request self in
  service request = Ok c_client ->
  resolved_marker self = Ok (marker, sort_dir) ->
  page (run (volume_checkpoint_list_paged request None marker true sort_dir) s)
    = Some (items, more, prev) ->
  replications_list c_client (ListQuery None None None None) = Raise e ->
  handle_verdict request e = Ok tt ->
  Forall (has_field "replication_id") items ->
  table_page (run (PagedTableMixin_init ;; get_data self) s) =
    Some (map (fun c => setattr c "_replication" None) items, more, prev) /\
  messages (run (PagedTableMixin_init ;; get_data self) s).2 =
    messages s ++ [(e, "Unable to retrieve volume checkpoints.")].
Proof.
  intros request Hservice Hmarker Hpage Hreps Hhandle Hrids.
  rewrite volume_checkpoint_list_paged_shape in Hpage.
  rewrite run_bind, run_PagedTableMixin_init. cbv beta iota.
  unfold get_data. rewrite run_bind, run_new_list. cbv beta iota. norm_state.
  set (r0 := fresh (dom (heap s))). set (h0 := <[r0 := []]> (heap s)).
  rewrite run_bind, run_try_block_cons, run_bind, run_get_marker, Hmarker.
  cbv beta iota. rewrite run_bind. fold request.
  rewrite volume_checkpoint_list_paged_shape.
  rewrite (run_list_paged_of_page _ _ _ _ _ _ _ s items more prev _ Hpage).
  cbv beta iota. rewrite run_bind, run_set_flags, run_ret. cbv beta iota.
  norm_state.
  set (r1 := fresh (dom h0)). set (h1 := <[r1 := items]> h0).
  rewrite run_try_block_cons, run_bind.
  rewrite (run_volume_replication_list_raises request c_client None e _
             Hservice Hreps).
  cbv beta iota. norm_state.
  set (r2 := fresh (dom h1)). set (h2 := <[r2 := []]> h1).
  assert (h2 !! r1 = Some items) as Hr1
    by apply lookup_fresh_insert, lookup_insert_eq.
  rewrite run_bind. unfold exceptions_handle.
  rewrite run_bind, run_outcome, Hhandle. cbv beta iota.
  rewrite run_queue_message, run_ret. cbv beta iota. norm_state.
  rewrite run_bind, (run_contents r1 items) by done.
  cbv beta iota. rewrite run_bind.
  change (imap (fun i c => (i, c)) items)
    with (imap (fun i c => (length (@nil obj) + i, c)) items).
  rewrite (run_for_each_rows r1 _ (with_replication ∅) items
             (fun s pre c post Hin Hr =>
                run_checkpoint_row r1 ∅ s pre c post
                  (proj1 (Forall_forall _ _) Hrids c Hin) Hr) _ [])
    by done.
  cbv beta iota. rewrite run_ret.
  unfold table_page. norm_state. cbn [fst snd].
  rewrite lookup_insert_eq. split; [|done]. simpl. do 3 f_equal.
  clear -Hrids. induction Hrids as [|c items [rid Hrid] _ IH]; [done|].
  simpl. rewrite IH. unfold with_replication at 1. by rewrite Hrid.
Qed.

Lemma checkpoints_get_data_without_replications_witness :
  service (view_request (CheckpointsView no_replications_request)) =
    Ok no_replications_client /\
  resolved_marker (CheckpointsView no_replications_request) =
    Ok (None, "desc") /\
  page (run (volume_checkpoint_list_paged no_replications_request None None
               true "desc") empty_state) =
    Some (sample_checkpoints, false, false) /\
  replications_list no_replications_client (ListQuery None None None None) =
    Raise (Remote "503 Service Unavailable") /\
  handle_verdict no_replications_request (Remote "503 Service Unavailable") =
    Ok tt /\
  Forall (has_field "replication_id") sample_checkpoints /\
  table_page (run (PagedTableMixin_init ;;
                   get_data (CheckpointsView no_replications_request))
                  empty_state) =
    Some (map (fun c => setattr c "_replication" None) sample_checkpoints,
          false, false) /\
  messages (run (PagedTableMixin_init ;;
                 get_data (CheckpointsView no_replications_request))
                empty_state).2 =
    messages empty_state ++
      [(Remote "503 Service Unavailable",
        "Unable to retrieve volume checkpoints.")].
Proof.
  assert (Forall (has_field "replication_id") sample_checkpoints) as Hrids
    by (repeat constructor; eexists; reflexivity).
  split; [reflexivity|]. split; [reflexivity|]. split; [reflexivity|].
  split; [reflexivity|]. split; [reflexivity|]. split; [exact Hrids|].
  exact (checkpoints_get_data_without_replications
           (CheckpointsView no_replications_request) no_replications_client
           None "desc" sample_checkpoints false false
           (Remote "503 Service Unavailable") empty_state
           eq_refl eq_refl eq_refl eq_refl eq_refl Hrids).
Defined.

(** ** [ReplicationsView.get_data] *)

Lemma run_volume_list api request c_client search_opts marker sort_dir vs s :
  service request = Ok c_client ->
  volumes_list api c_client (ListQuery search_opts None None None) = Ok vs ->
  run (volume_list api request search_opts marker sort_dir) s =
    (Ok (fresh (dom (heap s))),
     set_heap (<[fresh (dom (heap s)) := vs]> (heap s)) s).
Proof.
  intros Hservice Hlist. unfold volume_list.
  rewrite run_bind, volume_list_paged_shape.
  by rewrite (run_list_paged_all _ _ _ c_client _ _ _ vs s Hservice Hlist).
Qed.

(** The body of the loop of [ReplicationsView.get_data] on one row. *)
Lemma run_replication_row r d s pre c post :
  has_field "master_volume" c ->
  has_field "slave_volume" c ->
  heap s !! r = Some (pre ++ c :: post) ->
  run (set_master_and_slave r (PyDict d) (length pre) c) s =
    (Ok tt,
     set_heap (<[r := pre ++ with_master_and_slave d c :: post]> (heap s)) s).
Proof.
  intros [master Hmaster] [slave Hslave] Hr. unfold set_master_and_slave.
  rewrite run_bind, (run_getattr c "master_volume" master) by done.
  cbv beta iota. rewrite run_bind. unfold dict_get at 1. rewrite run_ret.
  cbv beta iota zeta.
  rewrite run_bind, (run_store_item _ _ _ _ _ Hr), insert_middle.
  cbv beta iota.
  rewrite run_bind, (run_getattr _ "slave_volume" slave) by done.
  cbv beta iota. rewrite run_bind. unfold dict_get at 1. rewrite run_ret.
  cbv beta iota.
  rewrite (run_store_item _ _ _ (pre ++ setattr c "_master" (d !! master)
                                   :: post))
    by (simpl; apply lookup_insert_eq).
  rewrite insert_middle. simpl. rewrite insert_insert_eq.
  unfold with_master_and_slave. by rewrite Hmaster, Hslave.
Qed.

(** [ReplicationsView.get_data] when both listings succeed. *)
Lemma run_replications_get_data_rows api self c_client marker sort_dir items
    more prev vols s :
  let request := view_request self in
  service request = Ok c_client ->
  resolved_marker self = Ok (marker, sort_dir) ->
  page (run (volume_replication_list_paged request None marker true sort_dir)
            s) = Some (items, more, prev) ->
  volumes_list api c_client (ListQuery None None None None) = Ok vols ->
  Forall (has_field "id") vols ->
  Forall (fun r => has_field "master_volume" r /\ has_field "slave_volume" r)
         items ->
  table_page (run (PagedTableMixin_init ;; ReplicationsView_get_data api self)
                  s) =
    Some (map (with_master_and_slave (index_by_id vols ∅)) items, more, prev).
Proof.
  intros request Hservice Hmarker Hpage Hvols Hids Hfields.
  rewrite volume_replication_list_paged_shape in Hpage.
  rewrite run_bind, run_PagedTableMixin_init. cbv beta iota.
  unfold ReplicationsView_get_data.
  rewrite run_bind, run_new_list. cbv beta iota. norm_state.
  set (r0 := fresh (dom (heap s))). set (h0 := <[r0 := []]> (heap s)).
  rewrite run_bind, run_try_block_cons, run_bind, run_get_marker, Hmarker.
  cbv beta iota. rewrite run_bind. fold request.
  rewrite volume_replication_list_paged_shape.
  rewrite (run_list_paged_of_page _ _ _ _ _ _ _ s items more prev _ Hpage).
  cbv beta iota. rewrite run_bind, run_set_flags, run_ret. cbv beta iota.
  norm_state.
  set (r1 := fresh (dom h0)). set (h1 := <[r1 := items]> h0).
  rewrite run_try_block_cons, run_bind.
  rewrite (run_volume_list api request c_client None None "desc" vols _
             Hservice Hvols).
  cbv beta iota. rewrite run_ret. cbv beta iota. norm_state.
  set (r2 := fresh (dom h1)). set (h2 := <[r2 := vols]> h1).
  assert (h2 !! r2 = Some vols) as Hr2 by apply lookup_insert_eq.
  assert (h2 !! r1 = Some items) as Hr1
    by apply lookup_fresh_insert, lookup_insert_eq.
  rewrite run_try_block_cons. norm_state.
  rewrite run_bind, (run_contents r2 vols) by done.
  cbv beta iota. rewrite run_bind, (run_dict_by_id vols ∅ _ Hids).
  cbv beta iota. rewrite run_ret, run_try_block_nil. cbv beta iota.
  norm_state.
  rewrite run_bind, (run_contents r1 items) by done.
  cbv beta iota. rewrite run_bind.
  change (imap (fun i r => (i, r)) items)
    with (imap (fun i r => (length (@nil obj) + i, r)) items).
  rewrite (run_for_each_rows r1 _ (with_master_and_slave (index_by_id vols ∅))
             items
             (fun s pre c post Hin Hr =>
                run_replication_row r1 (index_by_id vols ∅) s pre c post
                  (proj1 (proj1 (Forall_forall _ _) Hfields c Hin))
                  (proj2 (proj1 (Forall_forall _ _) Hfields c Hin)) Hr) _ [])
    by done.
  cbv beta iota. rewrite run_ret.
  unfold table_page. norm_state. cbn [fst snd].
  by rewrite lookup_insert_eq.
Qed.

(** When both listings succeed, [ReplicationsView.get_data] returns the
    page of replications row for row, stores the flags of the page in the
    view, and attaches to each replication as [_master] and [_slave] the
    listed volumes that its [master_volume] and [slave_volume] name, or
    [None] for an id that no listed volume has. *)
Theorem replications_get_data_rows api self c_client marker sort_dir items
    more prev vols s :
  let request := view_request self in
  service request = Ok c_client ->
  resolved_marker self = Ok (marker, sort_dir) ->
  page (run (volume_replication_list_paged request None marker true sort_dir)
            s) = Some (items, more, prev) ->
  volumes_list api c_client (ListQuery None None None None) = Ok vols ->
  Forall (has_field "id") vols ->
  Forall (fun r => has_field "master_volume" r /\ has_field "slave_volume" r)
         items ->
  exists rows,
    table_page (run (PagedTableMixin_init ;;
                     ReplicationsView_get_data api self) s) =
      Some (rows, more, prev) /\
    Forall2 (fun replication row =>
               exists master slave master_vol slave_vol,
                 assoc "master_volume" (fields_of replication) = Some master /\
                 assoc "slave_volume" (fields_of replication) = Some slave /\
                 row = setattr (setattr replication "_master" master_vol)
                               "_slave" slave_vol /\
                 found_by_id vols master master_vol /\
                 found_by_id vols slave slave_vol)
            items rows.
Proof.
  intros request Hservice Hmarker Hpage Hvols Hids Hfields.
  eexists. split.
  - exact (run_replications_get_data_rows api self c_client marker sort_dir
             items more prev vols s Hservice Hmarker Hpage Hvols Hids Hfields).
  - clear Hpage.
    induction Hfields as [|c items [[master Hm] [slave Hs]] _ IH]; simpl.
    + constructor.
    + constructor; [|exact IH].
      exists master, slave, (index_by_id vols ∅ !! master),
        (index_by_id vols ∅ !! slave).
      split; [done|]. split; [done|].
      split; [unfold with_master_and_slave; by rewrite Hm, Hs|].
      split; apply index_by_id_found.
Qed.

Lemma replications_get_data_rows_witness :
  service (view_request (ReplicationsView sample_request)) = Ok sample_client /\
  resolved_marker (ReplicationsView sample_request) = Ok (None, "desc") /\
  page (run (volume_replication_list_paged sample_request None None true
               "desc") empty_state) = Some (sample_replications, false, false) /\
  volumes_list sample_endpoints sample_client (ListQuery None None None None) =
    Ok [record "v1"; record "v2"] /\
  Forall (has_field "id") [record "v1"; record "v2"] /\
  Forall (fun r => has_field "master_volume" r /\ has_field "slave_volume" r)
         sample_replications /\
  exists rows,
    table_page (run (PagedTableMixin_init ;;
                     ReplicationsView_get_data sample_endpoints
                       (ReplicationsView sample_request)) empty_state) =
      Some (rows, false, false) /\
    Forall2 (fun replication row =>
               exists master slave master_vol slave_vol,
                 assoc "master_volume" (fields_of replication) = Some master /\
                 assoc "slave_volume" (fields_of replication) = Some slave /\
                 row = setattr (setattr replication "_master" master_vol)
                               "_slave" slave_vol /\
                 found_by_id [record "v1"; record "v2"] master master_vol /\
                 found_by_id [record "v1"; record "v2"] slave slave_vol)
            sample_replications rows.
Proof.
  assert (Forall (has_field "id") [record "v1"; record "v2"]) as Hids
    by (repeat constructor; eexists; reflexivity).
  assert (Forall (fun r => has_field "master_volume" r /\
                           has_field "slave_volume" r) sample_replications)
    as Hfields by (repeat constructor; eexists; reflexivity).
  split; [reflexivity|]. split; [reflexivity|]. split; [reflexivity|].
  split; [reflexivity|]. split; [exact Hids|]. split; [exact Hfields|].
  exact (replications_get_data_rows sample_endpoints
           (ReplicationsView sample_request) sample_client None "desc"
           sample_replications false false [record "v1"; record "v2"]
           empty_state eq_refl eq_refl eq_refl eq_refl Hids Hfields).
Defined.

Lemma run_replication_list_raises request c_client search_opts marker sort_dir
    e s :
  service request = Ok c_client ->
  replications_list c_client
    (ListQuery search_opts (Some (get_page_size request + 1)%Z) marker
       (Some ("created_at:" +:+ sort_dir))) = Raise e ->
  run (volume_replication_list_paged request search_opts marker true sort_dir) s
    = (Raise e, set_heap (<[fresh (dom (heap s)) := []]> (heap s)) s).
Proof.
  intros Hservice Hlist. rewrite volume_replication_list_paged_shape.
  pose proof (run_list_paged replications_list (fun x => x) request search_opts
                marker true sort_dir s) as Hrun.
  cbv zeta in Hrun. rewrite Hrun. unfold fetched_page.
  by rewrite Hservice, Hlist.
Qed.

(** When the paged listing of replications raises, [ReplicationsView]
    behaves as [CheckpointsView] does: the exception goes to
    [exceptions.handle], no volume is listed, the flags stay false, and
    the table gets no rows (or the exception that [handle] raises). *)
Theorem replications_get_data_list_raises api self c_client marker sort_dir
    e s :
  let request := view_request self in
  service request = Ok c_client ->
  resolved_marker self = Ok (marker, sort_dir) ->
  replications_list c_client
    (ListQuery None (Some (get_page_size request + 1)%Z) marker
       (Some ("created_at:" +:+ sort_dir))) = Raise e ->
  let out := run (PagedTableMixin_init ;; ReplicationsView_get_data api self)
                 s in
  match handle_verdict request e with
  | Ok _ =>
      table_page out = Some ([], false, false) /\
      messages out.2 =
        messages s ++ [(e, "Unable to retrieve volume replications.")]
  | Raise e' =>
      out.1 = Raise e' /\
      _has_more_data out.2 = false /\ _has_prev_data out.2 = false
  end.
Proof.
  intros request Hservice Hmarker Hlist out. subst out.
  rewrite run_bind, run_PagedTableMixin_init. cbv beta iota.
  unfold ReplicationsView_get_data.
  rewrite run_bind, run_new_list. cbv beta iota. norm_state.
  set (r0 := fresh (dom (heap s))). set (h0 := <[r0 := []]> (heap s)).
  rewrite run_bind, run_try_block_cons, run_bind, run_get_marker, Hmarker.
  cbv beta iota. rewrite run_bind. fold request.
  rewrite (run_replication_list_raises request c_client None marker sort_dir e
             _ Hservice Hlist).
  cbv beta iota. norm_state.
  set (h1 := <[fresh (dom h0) := []]> h0).
  assert (h1 !! r0 = Some []) as Hr0
    by apply lookup_fresh_insert, lookup_insert_eq.
  rewrite run_bind. unfold exceptions_handle.
  rewrite run_bind, run_outcome.
  destruct (handle_verdict request e) as [[]|e']; [|done].
  rewrite run_queue_message, run_ret. cbv beta iota. norm_state.
  rewrite run_bind, (run_contents r0 []) by done.
  cbv beta iota. simpl. by rewrite Hr0.
Qed.

Lemma replications_get_data_list_raises_witness :
  service (view_request (ReplicationsView no_replications_request)) =
    Ok no_replications_client /\
  resolved_marker (ReplicationsView no_replications_request) =
    Ok (None, "desc") /\
  replications_list no_replications_client
    (ListQuery None (Some (2 + 1)%Z) None (Some "created_at:desc")) =
    Raise (Remote "503 Service Unavailable") /\
  table_page (run (PagedTableMixin_init ;;
                   ReplicationsView_get_data sample_endpoints
                     (ReplicationsView no_replications_request)) empty_state)
    = Some ([], false, false) /\
  messages (run (PagedTableMixin_init ;;
                 ReplicationsView_get_data sample_endpoints
                   (ReplicationsView no_replications_request)) empty_state).2
    = messages empty_state ++
        [(Remote "503 Service Unavailable",
          "Unable to retrieve volume replications.")].
Proof.
  split; [reflexivity|]. split; [reflexivity|]. split; [reflexivity|].
  exact (replications_get_data_list_raises sample_endpoints
           (ReplicationsView no_replications_request) no_replications_client
           None "desc" (Remote "503 Service Unavailable") empty_state
           eq_refl eq_refl eq_refl).
Defined.

(** ** [volume_get] and the names of wrapped resources *)

Lemma run_name_attachments api request atts s :
  Forall (fun a => exists name, instance_name_of api request a name) atts ->
  exists atts',
    run (name_attachments api request atts) s = (Ok atts', s) /\
    Forall2 (fun a a' =>
               exists name,
                 a' = <["instance_name" := name]> a /\
                 instance_name_of api request a name)
            atts atts'.
Proof.
  induction 1 as [|a atts [name Hname] _ (atts' & Hrun & Hall)].
  - exists []. split; [reflexivity|constructor].
  - exists (<["instance_name" := name]> a :: atts'). split.
    + cbn [name_attachments]. rewrite run_bind.
      unfold instance_name_of in Hname.
      destruct (a !! "server_id") as [sid|].
      * destruct Hname as (instance & Hnova & Hinst).
        rewrite run_bind, run_outcome, Hnova. cbv beta iota.
        rewrite run_bind, (run_getattr instance "name" name) by done.
        cbv beta iota. rewrite run_ret. cbv beta iota.
        by rewrite run_bind, Hrun.
      * subst name. rewrite run_ret. cbv beta iota.
        by rewrite run_bind, Hrun.
    + constructor; [eauto|done].
Qed.

(** [volume_get] returns the volume it fetched with every attachment
    completed, and nothing else changed: each attachment gains an
    [instance_name], which is the name nova gives for its [server_id], or
    ["Unknown instance"] when the attachment has no [server_id] (nova is
    not asked then); the attachments keep their number and order. *)
Theorem volume_get_names_attachments api request c_client volume_id vd s :
  service request = Ok c_client ->
  volumes_get api c_client volume_id = Ok vd ->
  Forall (fun a => exists name, instance_name_of api request a name)
         (attachments vd) ->
  exists atts',
    run (volume_get api request volume_id) s =
      (Ok (VolumeData (volume_resource vd) atts'), s) /\
    Forall2 (fun a a' =>
               exists name,
                 a' = <["instance_name" := name]> a /\
                 instance_name_of api request a name)
            (attachments vd) atts'.
Proof.
  intros Hservice Hget Hatts.
  destruct (run_name_attachments api request (attachments vd) s Hatts)
    as (atts' & Hrun & Hall).
  exists atts'. split; [|done].
  unfold volume_get, sgsclient.
  rewrite !run_bind, run_outcome, Hservice. cbv beta iota.
  rewrite run_ret. cbv beta iota.
  rewrite run_bind, run_outcome, Hget. cbv beta iota.
  by rewrite run_bind, Hrun.
Qed.

Lemma volume_get_names_attachments_witness :
  service sample_request = Ok sample_client /\
  volumes_get sample_endpoints sample_client "v1" =
    Ok (VolumeData (record "v1")
          [ {[ "server_id" := "i-1" ]}; {[ "device" := "/dev/vdb" ]} ]) /\
  exists atts',
    run (volume_get sample_endpoints sample_request "v1") empty_state =
      (Ok (VolumeData (record "v1") atts'), empty_state) /\
    Forall2 (fun a a' =>
               exists name,
                 a' = <["instance_name" := name]> a /\
                 instance_name_of sample_endpoints sample_request a name)
            [ {[ "server_id" := "i-1" ]}; {[ "device" := "/dev/vdb" ]} ] atts'.
Proof.
  split; [reflexivity|]. split; [reflexivity|].
  refine (volume_get_names_attachments sample_endpoints sample_request
            sample_client "v1"
            (VolumeData (record "v1")
               [ {[ "server_id" := "i-1" ]}; {[ "device" := "/dev/vdb" ]} ])
            empty_state eq_refl eq_refl _).
  repeat constructor.
  - exists "web-i-1". exists (Obj [("name", "web-i-1")] []).
    split; reflexivity.
  - exists "Unknown instance". reflexivity.
Defined.

(** One failing lookup in nova fails the whole [volume_get], although the
    volume itself was fetched: the exception of the first attachment whose
    server cannot be retrieved is raised, and no volume is returned. *)
Theorem volume_get_nova_failure api request c_client volume_id vd before a
    after server_id e s :
  service request = Ok c_client ->
  volumes_get api c_client volume_id = Ok vd ->
  attachments vd = before ++ a :: after ->
  Forall (fun a => exists name, instance_name_of api request a name) before ->
  a !! "server_id" = Some server_id ->
  nova_server_get api request server_id = Raise e ->
  run (volume_get api request volume_id) s = (Raise e, s).
Proof.
  intros Hservice Hget Hatts Hbefore Hsid Hnova.
  unfold volume_get, sgsclient.
  rewrite !run_bind, run_outcome, Hservice. cbv beta iota.
  rewrite run_ret. cbv beta iota.
  rewrite run_bind, run_outcome, Hget. cbv beta iota.
  rewrite run_bind, Hatts.
  assert (run (name_attachments api request (before ++ a :: after)) s =
          (Raise e, s)) as ->; [|done].
  clear Hatts Hget. induction Hbefore as [|b before [name Hname] _ IH].
  - cbn [app name_attachments]. rewrite run_bind, Hsid.
    by rewrite run_bind, run_outcome, Hnova.
  - cbn [app name_attachments]. rewrite run_bind.
    unfold instance_name_of in Hname.
    destruct (b !! "server_id") as [sid|].
    + destruct Hname as (instance & Hinst & Hn).
      rewrite run_bind, run_outcome, Hinst. cbv beta iota.
      rewrite run_bind, (run_getattr instance "name" name) by done.
      cbv beta iota. rewrite run_ret. cbv beta iota.
      by rewrite run_bind, IH.
    + rewrite run_ret. cbv beta iota. by rewrite run_bind, IH.
Qed.

Lemma volume_get_nova_failure_witness :
  service sample_request = Ok sample_client /\
  volumes_get nova_down_endpoints sample_client "v1" =
    Ok (VolumeData (record "v1")
          [ {[ "server_id" := "i-1" ]}; {[ "device" := "/dev/vdb" ]} ]) /\
  ({[ "server_id" := "i-1" ]} : gmap string string) !! "server_id" =
    Some "i-1" /\
  nova_server_get nova_down_endpoints sample_request "i-1" =
    Raise (Remote "nova: 503 Service Unavailable") /\
  run (volume_get nova_down_endpoints sample_request "v1") empty_state =
    (Raise (Remote "nova: 503 Service Unavailable"), empty_state).
Proof.
  split; [reflexivity|]. split; [reflexivity|]. split; [reflexivity|].
  split; [reflexivity|].
  exact (volume_get_nova_failure nova_down_endpoints sample_request
           sample_client "v1"
           (VolumeData (record "v1")
              [ {[ "server_id" := "i-1" ]}; {[ "device" := "/dev/vdb" ]} ])
           [] {[ "server_id" := "i-1" ]} [ {[ "device" := "/dev/vdb" ]} ]
           "i-1" (Remote "nova: 503 Service Unavailable") empty_state
           eq_refl eq_refl eq_refl (List.Forall_nil _) eq_refl eq_refl).
Defined.

(** The name of a wrapped resource follows the fallback chain of the code
    by truth value, step by step: a non-empty [name] is shown; without one,
    a non-empty [display_name] is shown; without either, the [id] is shown
    as it is.  So a resource whose name is missing or empty shows its
    display name or id, and the name shown is non-empty as soon as the id
    is. *)
Theorem wrapper_name_fallback b s :
  let r := VolumeBackup b in
  exists shown,
    run (BaseSgAPIResourceWrapper_name r) s = (Ok shown, s) /\
    (forall n, getattr_or_None b "name" = Some n -> n <> "" ->
       shown = Some n) /\
    (~ nonempty (getattr_or_None b "name") ->
     forall d, getattr_or_None b "display_name" = Some d -> d <> "" ->
       shown = Some d) /\
    (~ nonempty (getattr_or_None b "name") ->
     ~ nonempty (getattr_or_None b "display_name") ->
     shown = getattr_or_None b "id") /\
    (nonempty (getattr_or_None b "id") -> nonempty shown).
Proof.
  intros r. subst r. eexists. split; [reflexivity|].
  unfold py_or.
  destruct (truthy (getattr_or_None b "name")) eqn:Hname.
  - cbn [truthy]. rewrite Hname.
    destruct (truthy_Some_nonempty _ Hname) as (n & Hn & Hne).
    split; [intros n' Hn' _; congruence|].
    split; [intros Hno; destruct Hno; by exists n|].
    split; [intros Hno; destruct Hno; by exists n|].
    intros _. by exists n.
  - assert (~ nonempty (getattr_or_None b "name")) as Hno.
    { intros (n & Hn & Hne). rewrite Hn in Hname. simpl in Hname.
      by apply negb_false_iff, String.eqb_eq in Hname. }
    split; [intros n Hn Hne; destruct Hno; by exists n|].
    destruct (truthy (getattr_or_None b "display_name")) eqn:Hdisplay.
    + destruct (truthy_Some_nonempty _ Hdisplay) as (d & Hd & Hne).
      split; [intros _ d' Hd' _; congruence|].
      split; [intros _ Hno'; destruct Hno'; by exists d|].
      intros _. by exists d.
    + assert (~ nonempty (getattr_or_None b "display_name")) as Hno'.
      { intros (d & Hd & Hne). rewrite Hd in Hdisplay. simpl in Hdisplay.
        by apply negb_false_iff, String.eqb_eq in Hdisplay. }
      split; [intros _ d Hd Hne; destruct Hno'; by exists d|].
      split; done.
Qed.

(** A backup named by its display name only. *)
Example wrapper_name_display_name :
  run (BaseSgAPIResourceWrapper_name
         (VolumeBackup (Obj [("id", "b-1"); ("name", "");
                             ("display_name", "nightly")] [])))
      empty_state = (Ok (Some "nightly"), empty_state).
Proof. reflexivity. Qed.
